(** * snapboard models: permission evaluation, revision chain, aggregate
    recomputation and ban cache, embedded from [snapboard/models.py]. *)

From Stdlib Require Import Lia.
From stdpp Require Import base list strings gmap sets.

(** ** Python exceptions raised by the model code *)

Inductive exc :=
| IndexError        (* QuerySet[0] on an empty queryset *)
| AttributeError    (* attribute access on [None] *)
| DoesNotExist      (* foreign key or lookup that finds no row *)
| IntegrityError    (* NOT NULL or uniqueness constraint of the store *)
| MultipleObjectsReturned  (* [get] matching more than one row *)
| KeyError.         (* [dict.pop] of a missing key *)

Inductive result (A : Type) :=
| Ok (a : A)
| Err (e : exc).
Arguments Ok {A} a.
Arguments Err {A} e.

Definition bind {A B} (m : result A) (k : A -> result B) : result B :=
  match m with Ok a => k a | Err e => Err e end.

Notation "'let*' x := m 'in' k" := (bind m (fun x => k))
  (at level 200, x name, m at level 100, k at level 200).

(** ** Rows *)

(** [django.contrib.auth.models.User] and [AnonymousUser]: the anonymous
    user has no primary key and is not authenticated. *)
Record user := mkUser {
  u_pk : option nat;
  u_username : string;
  u_email : string;
  u_is_authenticated : bool;
  u_is_superuser : bool;
  u_is_staff : bool
}.

(** [Group]: members ([users]) and administrators ([admins]), by pk. *)
Record group := mkGroup {
  g_users : list nat;
  g_admins : list nat
}.

(** [self.users.filter(pk=user.pk).count() != 0] *)
Definition has_user (g : group) (u : user) : bool :=
  match u_pk u with
  | Some pk => negb (length (List.filter (fun x => Nat.eqb x pk) (g_users g)) =? 0)
  | None => false
  end.

Definition has_admin (g : group) (u : user) : bool :=
  match u_pk u with
  | Some pk => negb (length (List.filter (fun x => Nat.eqb x pk) (g_admins g)) =? 0)
  | None => false
  end.

Definition NOBODY := 0.
Definition ALL := 1.
Definition USERS := 2.
Definition CUSTOM := 3.

(** [Post]: [p_id] is [None] before the first save. Foreign keys are
    stored as the referenced row's id. *)
Record post := mkPost {
  p_id : option nat;
  p_user : option user;
  p_thread : nat;
  p_date : nat;
  p_odate : option nat;
  p_revision : option nat;
  p_previous : option nat;
  p_censor : bool
}.

Record thread := mkThread {
  t_id : nat;
  t_category : nat;
  t_private : bool;
  t_post_count : nat;
  t_starter : string;
  t_starter_email : string;
  t_last_poster : string;
  t_last_poster_email : string;
  t_last_update : option nat
}.

Record category := mkCategory {
  c_id : nat;
  c_thread_count : nat;
  c_last_post : option nat;
  c_view_perms : nat;
  c_read_perms : nat;
  c_post_perms : nat;
  c_new_thread_perms : nat;
  c_view_group : option group;
  c_read_group : option group;
  c_post_group : option group;
  c_new_thread_group : option group
}.

(** ** Permission evaluator ([Category.can_view] ... [can_create_thread]) *)
Module Perm.

(** [self.X_group.has_user(user)] where [X_group] may be [None]. *)
Definition group_has_user (g : option group) (u : user) : result bool :=
  match g with
  | Some g => Ok (has_user g u)
  | None => Err AttributeError
  end.

(** [user.is_superuser or (user.is_authenticated() and grp.has_user(user))],
    with Python's short-circuit evaluation. *)
Definition custom_check (g : option group) (u : user) : result bool :=
  if u_is_superuser u then Ok true
  else if u_is_authenticated u then group_has_user g u
  else Ok false.

Definition can_view (c : category) (u : user) : result bool :=
  if Nat.eqb (c_view_perms c) ALL then Ok true
  else if Nat.eqb (c_view_perms c) USERS then Ok (u_is_authenticated u)
  else if Nat.eqb (c_view_perms c) CUSTOM then custom_check (c_view_group c) u
  else Ok false.

Definition can_read (c : category) (u : user) : result bool :=
  if Nat.eqb (c_read_perms c) ALL then Ok true
  else if Nat.eqb (c_read_perms c) USERS then Ok (u_is_authenticated u)
  else if Nat.eqb (c_read_perms c) CUSTOM then custom_check (c_read_group c) u
  else Ok false.

Definition can_post (c : category) (u : user) : result bool :=
  if Nat.eqb (c_post_perms c) USERS then Ok (u_is_authenticated u)
  else if Nat.eqb (c_post_perms c) CUSTOM then custom_check (c_post_group c) u
  else Ok false.

Definition can_create_thread (c : category) (u : user) : result bool :=
  if Nat.eqb (c_new_thread_perms c) USERS then Ok (u_is_authenticated u)
  else if Nat.eqb (c_new_thread_perms c) CUSTOM then
    custom_check (c_new_thread_group c) u
  else Ok false.

(** Membership of an actor in a group's member set, as a proposition. *)
Definition member (g : group) (u : user) : Prop :=
  exists pk, u_pk u = Some pk /\ In pk (g_users g).



End Perm.

(** ** Aggregate recomputation ([Thread.update], [Category.update] and the
    [post_save] / [pre_delete] signal receivers) *)
Module Agg.

(** The persisted rows the recomputation reads and writes. *)
Record db := mkDB {
  threads : list thread;
  posts : list post;
  categories : list category
}.

Definition set_threads (d : db) (l : list thread) : db :=
  mkDB l (posts d) (categories d).
Definition set_posts (d : db) (l : list post) : db :=
  mkDB (threads d) l (categories d).
Definition set_categories (d : db) (l : list category) : db :=
  mkDB (threads d) (posts d) l.

(** Field assignments on a [Thread] instance. *)
Definition set_post_count (t : thread) (n : nat) : thread :=
  mkThread (t_id t) (t_category t) (t_private t) n (t_starter t)
    (t_starter_email t) (t_last_poster t) (t_last_poster_email t) (t_last_update t).
Definition set_last_update (t : thread) (d : option nat) : thread :=
  mkThread (t_id t) (t_category t) (t_private t) (t_post_count t) (t_starter t)
    (t_starter_email t) (t_last_poster t) (t_last_poster_email t) d.
Definition set_starter (t : thread) (s e : string) : thread :=
  mkThread (t_id t) (t_category t) (t_private t) (t_post_count t) s e
    (t_last_poster t) (t_last_poster_email t) (t_last_update t).
Definition set_last_poster (t : thread) (s e : string) : thread :=
  mkThread (t_id t) (t_category t) (t_private t) (t_post_count t) (t_starter t)
    (t_starter_email t) s e (t_last_update t).

(** Field assignments on a [Category] instance. *)
Definition set_last_post (c : category) (p : option nat) : category :=
  mkCategory (c_id c) (c_thread_count c) p (c_view_perms c) (c_read_perms c)
    (c_post_perms c) (c_new_thread_perms c) (c_view_group c) (c_read_group c)
    (c_post_group c) (c_new_thread_group c).
Definition set_thread_count (c : category) (n : nat) : category :=
  mkCategory (c_id c) n (c_last_post c) (c_view_perms c) (c_read_perms c)
    (c_post_perms c) (c_new_thread_perms c) (c_view_group c) (c_read_group c)
    (c_post_group c) (c_new_thread_group c).

(** [order_by("date")]: a stable sort by ascending date. *)
Fixpoint insert_asc (x : post) (l : list post) : list post :=
  match l with
  | [] => [x]
  | y :: r => if p_date x <=? p_date y then x :: y :: r else y :: insert_asc x r
  end.
Fixpoint order_by_date (l : list post) : list post :=
  match l with [] => [] | x :: r => insert_asc x (order_by_date r) end.

(** [order_by("-date")]: a stable sort by descending date. *)
Fixpoint insert_desc (x : post) (l : list post) : list post :=
  match l with
  | [] => [x]
  | y :: r => if p_date y <=? p_date x then x :: y :: r else y :: insert_desc x r
  end.
Fixpoint order_by_date_desc (l : list post) : list post :=
  match l with [] => [] | x :: r => insert_desc x (order_by_date_desc r) end.

(** [qs[0]]: Django raises [IndexError] on an empty queryset. *)
Definition qs_index0 {A} (l : list A) : result A :=
  match l with [] => Err IndexError | x :: _ => Ok x end.

(** [try: return X except Model.DoesNotExist: return None] *)
Definition except_DoesNotExist {A} (m : result A) : result (option A) :=
  match m with
  | Ok a => Ok (Some a)
  | Err DoesNotExist => Ok None
  | Err e => Err e
  end.

(** [self.post_set] *)
Definition post_set (t : thread) (d : db) : list post :=
  List.filter (fun p => Nat.eqb (p_thread p) (t_id t)) (posts d).

Definition get_first_post (ps : list post) : result (option post) :=
  except_DoesNotExist (qs_index0 (order_by_date ps)).

Definition get_last_post (ps : list post) : result (option post) :=
  except_DoesNotExist (qs_index0 (order_by_date_desc ps)).

(** [self.post_set.exclude(censor=True, revision__isnull=False).count()] *)
Definition update_post_count (t : thread) (ps : list post) : thread :=
  set_post_count t
    (length (List.filter (fun p => negb (p_censor p && match p_revision p with Some _ => true | None => false end)) ps)).

(** [self.last_update = self.get_last_post().date] *)
Definition update_last_update (t : thread) (ps : list post) : result thread :=
  let* lp := get_last_post ps in
  match lp with
  | Some p => Ok (set_last_update t (Some (p_date p)))
  | None => Err AttributeError
  end.

(** [post.user.username], [post.user.email] *)
Definition user_fields (p : post) : result (string * string) :=
  match p_user p with
  | Some u => Ok (u_username u, u_email u)
  | None => Err AttributeError
  end.

Definition update_first_post (t : thread) (ps : list post) : result thread :=
  let* fp := get_first_post ps in
  match fp with
  | Some p => let* ue := user_fields p in Ok (set_starter t (fst ue) (snd ue))
  | None => Ok t
  end.

Definition update_last_post (t : thread) (ps : list post) : result thread :=
  let* lp := get_last_post ps in
  match lp with
  | Some p => let* ue := user_fields p in Ok (set_last_poster t (fst ue) (snd ue))
  | None => Ok t
  end.

(** The field updates of [Thread.update], before [self.save()]. *)
Definition thread_recompute (t : thread) (ps : list post) : result thread :=
  let t := update_post_count t ps in
  let* t := update_last_update t ps in
  let* t := update_first_post t ps in
  update_last_post t ps.

(** [Category.update_last_post]: the [IndexError] of an empty queryset is
    swallowed and the category is left as it is. *)
Definition Category_update_last_post (c : category) (d : db) : category :=
  let thread_pks := map t_id (List.filter
      (fun t => Nat.eqb (t_category t) (c_id c) && negb (t_private t)) (threads d)) in
  match qs_index0 (order_by_date_desc
          (List.filter (fun p => existsb (Nat.eqb (p_thread p)) thread_pks) (posts d))) with
  | Ok p => set_last_post c (p_id p)
  | Err _ => c
  end.

(** [Category.update_thread_count]: [thread_set.filter(private=False).count()] *)
Definition Category_update_thread_count (c : category) (d : db) : category :=
  set_thread_count c (length (List.filter
      (fun t => Nat.eqb (t_category t) (c_id c) && negb (t_private t)) (threads d))).

(** [Category.update] *)
Definition Category_update (c : category) (d : db) : category :=
  Category_update_thread_count (Category_update_last_post c d) d.

(** [Model.save()] on an existing row: [UPDATE ... WHERE id = ...]. *)
Definition save_thread (t : thread) (d : db) : db :=
  set_threads d (map (fun t' => if Nat.eqb (t_id t') (t_id t) then t else t') (threads d)).
Definition save_category (c : category) (d : db) : db :=
  set_categories d
    (map (fun c' => if Nat.eqb (c_id c') (c_id c) then c else c') (categories d)).

(** Loading a row by primary key (a foreign key access). *)
Definition get_thread (tid : nat) (d : db) : result thread :=
  match List.find (fun t => Nat.eqb (t_id t) tid) (threads d) with
  | Some t => Ok t
  | None => Err DoesNotExist
  end.
Definition get_category (cid : nat) (d : db) : result category :=
  match List.find (fun c => Nat.eqb (c_id c) cid) (categories d) with
  | Some c => Ok c
  | None => Err DoesNotExist
  end.
Definition get_post (pid : nat) (d : db) : result post :=
  match List.find (fun p => bool_decide (p_id p = Some pid)) (posts d) with
  | Some p => Ok p
  | None => Err DoesNotExist
  end.

(** The category recompute on the row [cid]: load, [update()], saved. *)
Definition Category_update_id (cid : nat) (d : db) : result db :=
  let* c := get_category cid d in
  Ok (save_category (Category_update c d) d).

(** [Thread.signal] ([post_save] and [pre_delete] of [Thread]):
    [instance.category.update()]. *)
Definition Thread_signal (t : thread) (d : db) : result db :=
  Category_update_id (t_category t) d.

(** [Thread.update]: recompute the fields, [self.save()], which fires
    [Thread.signal]. *)
Definition Thread_update (t : thread) (d : db) : result db :=
  let* t' := thread_recompute t (post_set t d) in
  Thread_signal t' (save_thread t' d).

(** The thread recompute on the row [tid]. *)
Definition Thread_update_id (tid : nat) (d : db) : result db :=
  let* t := get_thread tid d in
  Thread_update t d.

(** [Post.signal] ([post_save] and [pre_delete] of [Post]):
    [instance.thread.update()]. *)
Definition Post_signal (p : post) (d : db) : result db :=
  Thread_update_id (p_thread p) d.

(** Deleting a post row: the [pre_delete] receiver [Post.signal] runs while
    the row is still stored, then the row is removed. (Django also deletes
    rows whose foreign keys point to the deleted one; the inputs used below
    have none.) *)
Definition Post_delete (pid : nat) (d : db) : result db :=
  let* p := get_post pid d in
  let* d1 := Post_signal p d in
  Ok (set_posts d1 (List.filter (fun q => negb (bool_decide (p_id q = Some pid))) (posts d1))).

(** [Thread.get_post_count]: the result of [qs.filter(date__lt=...)] is
    not assigned back to [qs]. *)
Definition get_post_count (ps : list post) (u : user) (before : option post) : nat :=
  let qs := List.filter (fun p => match p_revision p with None => true | Some _ => false end) ps in
  let qs := if u_is_staff u then qs else List.filter (fun p => negb (p_censor p)) qs in
  let _ := match before with
           | Some b => List.filter (fun p => p_date p <? p_date b) qs
           | None => qs
           end in
  length qs.

End Agg.

(** ** [Post.notify]: the recipients of the notification mail *)
Module Notify.

(** [dict(rows)]: a later pair for the same key replaces an earlier one. *)
Definition dict_of (rows : list (nat * string)) : gmap nat string :=
  foldl (fun m r => <[fst r := snd r]> m) ∅ rows.

(** [for pk in pks: mail_dict.pop(pk)]; [None] stands for the [KeyError]
    of a missing key. *)
Fixpoint pop_all (m : gmap nat string) (pks : list nat) : option (gmap nat string) :=
  match pks with
  | [] => Some m
  | k :: ks => match m !! k with
               | Some _ => pop_all (delete k m) ks
               | None => None
               end
  end.

(** The recipient set [Post.notify] builds. [watch]:
    [thread.watchlist_set.values_list("user__id", "user__email")];
    [settings]: the [UserSettings] rows as (user id, [notify_email]);
    [admins]: [settings.ADMINS] as (name, email). [None] is the [KeyError]
    of [mail_dict.pop]. *)
Definition mail_recipients (watch : list (nat * string)) (settings : list (nat * bool))
    (admins : list (string * string)) : option (gset string) :=
  let mail_dict := dict_of watch in
  let dont_mail_pks := map fst (List.filter
      (fun s => bool_decide (fst s ∈ dom mail_dict) && negb (snd s)) settings) in
  match pop_all mail_dict dont_mail_pks with
  | Some m => Some (list_to_set (map snd (map_to_list m)) ∪ list_to_set (map snd admins))
  | None => None
  end.

(** [Post.notify]. [send] stands for
    [renders("notification/notify_body.txt", ctx)] followed by
    [send_mail(subj, body, settings.DEFAULT_FROM_EMAIL, recipients,
    fail_silently=settings.DEBUG)]: code outside this file, which may
    raise. The result is the recipient set handed to [send_mail] (the
    method itself returns [None]). *)
Definition Post_notify (send : gset string -> result unit) (watch : list (nat * string))
    (settings : list (nat * bool)) (admins : list (string * string)) : result (gset string) :=
  match mail_recipients watch settings admins with
  | Some R => let* _ := send R in Ok R
  | None => Err KeyError
  end.

End Notify.

(** ** [Post.save] and [Post.management_save] *)
Module Revision.

Definition set_odate (p : post) (d : option nat) : post :=
  mkPost (p_id p) (p_user p) (p_thread p) (p_date p) d (p_revision p)
    (p_previous p) (p_censor p).
Definition set_id (p : post) (i : option nat) : post :=
  mkPost i (p_user p) (p_thread p) (p_date p) (p_odate p) (p_revision p)
    (p_previous p) (p_censor p).
Definition set_date (p : post) (d : nat) : post :=
  mkPost (p_id p) (p_user p) (p_thread p) d (p_odate p) (p_revision p)
    (p_previous p) (p_censor p).

(** [self.previous]: the foreign key loads the referenced row. *)
Definition load_post (pid : nat) (rows : list post) : result post :=
  match List.find (fun p => bool_decide (p_id p = Some pid)) rows with
  | Some p => Ok p
  | None => Err DoesNotExist
  end.

(** [self.user_id]: no author, or an author without primary key, leaves
    the column NULL. *)
Definition user_id (p : post) : option nat :=
  match p_user p with Some u => u_pk u | None => None end.

(** The rows [Post.save] reaches: the posts, threads and categories; the
    [UserSettings] rows as (user id, [notify_email]); the [WatchList] rows
    as (user id, the user's email, thread id); and the mails sent, as the
    post notified and the recipient set. *)
Record store := mkStore {
  s_db : Agg.db;
  s_settings : list (nat * bool);
  s_watch : list (nat * string * nat);
  s_mail : list (post * gset string)
}.

Definition set_db (st : store) (d : Agg.db) : store :=
  mkStore d (s_settings st) (s_watch st) (s_mail st).
Definition set_settings (st : store) (l : list (nat * bool)) : store :=
  mkStore (s_db st) l (s_watch st) (s_mail st).
Definition set_watch (st : store) (l : list (nat * string * nat)) : store :=
  mkStore (s_db st) (s_settings st) l (s_mail st).
Definition add_mail (st : store) (m : post * gset string) : store :=
  mkStore (s_db st) (s_settings st) (s_watch st) (s_mail st ++ [m]).

Section Save.
(** [settings.SNAP_NOTIFY], [settings.ADMINS], and [renders] followed by
    [send_mail] for a post and a recipient set (see [Notify.Post_notify]). *)
Variable snap_notify : bool.
Variable admins : list (string * string).
Variable send : post -> gset string -> result unit.
(** [datetime.now()] in [save], the time the [auto_now_add] field [date]
    takes on an insert, and the primary key an insert assigns. *)
Variables now stamp new_id : nat.

(** The date logic of [save] and [management_save], before
    [super(Post, self).save(...)]. *)
Definition save_dates (rows : list post) (self : post) : result post :=
  let created := match p_id self with None => true | Some _ => false end in
  match p_previous self with
  | Some pid => let* prev := load_post pid rows in Ok (set_odate self (p_odate prev))
  | None => if created then Ok (set_odate self (Some now)) else Ok self
  end.

(** [Model.save(False, False)] of a post: the NOT NULL column [user_id]
    refuses a post without author; a row whose id is stored is updated;
    otherwise a row is inserted, which sets the [auto_now_add] field
    [date] and, when the instance has no id, its new id. The [post_save]
    receiver [Post.signal] then recomputes the thread. *)
Definition save_base (d : Agg.db) (self : post) : result (Agg.db * post) :=
  match user_id self with
  | None => Err IntegrityError
  | Some _ =>
      let stored :=
        match p_id self with
        | Some i => existsb (fun q => bool_decide (p_id q = Some i)) (Agg.posts d)
        | None => false
        end in
      let dp :=
        if stored then
          (Agg.set_posts d (map (fun q => if bool_decide (p_id q = p_id self) then self else q)
                              (Agg.posts d)), self)
        else
          let self := set_date self stamp in
          let self := match p_id self with Some _ => self | None => set_id self (Some new_id) end in
          (Agg.set_posts d (Agg.posts d ++ [self]), self) in
      let* d' := Agg.Post_signal (snd dp) (fst dp) in
      Ok (d', snd dp)
  end.

(** [UserSettings.objects.get_or_create(user=self.user)]; a new row has the
    default [notify_email = True]. *)
Definition get_or_create_settings (uid : nat) (st : store) : result store :=
  match List.filter (fun r => Nat.eqb (fst r) uid) (s_settings st) with
  | [] => Ok (set_settings st (s_settings st ++ [(uid, true)]))
  | [_] => Ok st
  | _ => Err MultipleObjectsReturned
  end.

(** [WatchList.objects.get_or_create(user=self.user, thread=self.thread)] *)
Definition get_or_create_watch (u : user) (uid tid : nat) (st : store) : result store :=
  match List.filter (fun r => Nat.eqb r.1.1 uid && Nat.eqb r.2 tid) (s_watch st) with
  | [] => Ok (set_watch st (s_watch st ++ [(uid, u_email u, tid)]))
  | [_] => Ok st
  | _ => Err MultipleObjectsReturned
  end.

(** [self.notify()] *)
Definition notify (self : post) (st : store) : result store :=
  let watch := map (fun r => (r.1.1, r.1.2))
                 (List.filter (fun r => Nat.eqb r.2 (p_thread self)) (s_watch st)) in
  let* R := Notify.Post_notify (send self) watch (s_settings st) admins in
  Ok (add_mail st (self, R)).

(** [Post.save]: returns the saved instance with the store. *)
Definition Post_save (st : store) (self : post) : result (store * post) :=
  let created := match p_id self with None => true | Some _ => false end in
  let* self := save_dates (Agg.posts (s_db st)) self in
  let* r := save_base (s_db st) self in
  let st := set_db st (fst r) in
  let self := snd r in
  match p_user self, user_id self with
  | Some u, Some uid =>
      if snap_notify && created then
        let* st := get_or_create_settings uid st in
        let* st := get_or_create_watch u uid (p_thread self) st in
        let* st := notify self st in
        Ok (st, self)
      else Ok (st, self)
  | _, _ => Ok (st, self)   (* not reached: [save_base] refused the row *)
  end.

(** [Post.management_save]: the same date logic and
    [super(Post, self).save(False, False)]; the method returns [None], the
    instance is updated in place and given back here. *)
Definition management_save (d : Agg.db) (self : post) : result (Agg.db * post) :=
  let* self := save_dates (Agg.posts d) self in
  save_base d self.

End Save.

End Revision.

(** ** Ban registry ([UserBan.update_cache], [IPBan.update_cache]) *)
Module Bans.

Section Registry.
Context {K : Type} `{Countable K}.

(** The persisted ban rows (primary key, banned key) and the process-wide
    set ([settings.SNAP_BANNED_USERS] or [settings.SNAP_BANNED_IPS]). *)
Record ban_state := mkBanState {
  store : list (nat * K);
  cache : gset K
}.

(** [update_cache]: [SELECT key FROM table], the whole set replaced. *)
Definition update_cache (s : ban_state) : ban_state :=
  mkBanState (store s) (list_to_set (map snd (store s))).

Inductive ban_op :=
| Save (rid : nat) (k : K)   (* [save()] of the row with primary key [rid] *)
| Delete (rid : nat).        (* [delete()] of the row with primary key [rid] *)

(** A row is written (inserted when [rid] is new, updated otherwise); the
    unique key column refuses a key held by another row; [post_save] or
    [post_delete] then runs [update_cache]. *)
Definition apply_ban_op (op : ban_op) (s : ban_state) : result ban_state :=
  match op with
  | Save rid k =>
      if existsb (fun r => bool_decide (snd r = k) && negb (Nat.eqb (fst r) rid)) (store s)
      then Err IntegrityError
      else
        let st :=
          if existsb (fun r => Nat.eqb (fst r) rid) (store s)
          then map (fun r => if Nat.eqb (fst r) rid then (rid, k) else r) (store s)
          else store s ++ [(rid, k)] in
        Ok (update_cache (mkBanState st (cache s)))
  | Delete rid =>
      Ok (update_cache (mkBanState
            (List.filter (fun r => negb (Nat.eqb (fst r) rid)) (store s)) (cache s)))
  end.

(** [key in settings.SNAP_BANNED_...] *)
Definition is_banned (k : K) (s : ban_state) : bool := bool_decide (k ∈ cache s).

End Registry.
Arguments ban_state K {_ _}.
Arguments ban_op K : clear implicits.
Arguments Save {K} rid k.
Arguments Delete {K} rid.

(** [is_user_banned(user)]: [user.id in settings.SNAP_BANNED_USERS]; the
    anonymous user's [id] is [None], never in the set. *)
Definition is_user_banned (u : user) (s : ban_state nat) : bool :=
  match u_pk u with
  | Some i => is_banned i s
  | None => false
  end.

(** [is_ip_banned(ip)] *)
Definition is_ip_banned (ip : string) (s : ban_state string) : bool :=
  is_banned ip s.

End Bans.

(** ** [Category.moderators] *)
Module Moderators.

(** [Moderator] rows as (category id, user). *)
Definition moderators (cid : nat) (rows : list (nat * user)) : option string :=
  let mods := List.filter (fun m => Nat.eqb (fst m) cid) rows in
  if 0 <? length mods then Some (String.concat ", " (map (fun m => u_username (snd m)) mods))
  else None.

End Moderators.

(** * Properties *)

Open Scope string_scope.

Lemma has_user_member g u : has_user g u = true <-> Perm.member g u.
Proof.
  unfold has_user, Perm.member. destruct (u_pk u) as [pk|].
  - split.
    + intros H. destruct (List.filter (fun x => Nat.eqb x pk) (g_users g)) as [|y l] eqn:E;
        [discriminate|].
      assert (Hy : In y (List.filter (fun x => Nat.eqb x pk) (g_users g))) by (rewrite E; left; reflexivity).
      apply List.filter_In in Hy as [Hin Heq]. apply Nat.eqb_eq in Heq. subst.
      eauto.
    + intros (pk' & Hpk & Hin). injection Hpk as ->.
      destruct (List.filter (fun x => Nat.eqb x pk') (g_users g)) as [|y l] eqn:E; [|reflexivity].
      assert (Hf : In pk' (List.filter (fun x => Nat.eqb x pk') (g_users g))).
      { apply List.filter_In. split; [exact Hin|apply Nat.eqb_refl]. }
      rewrite E in Hf. destruct Hf.
  - split; [discriminate|]. intros (pk & H & _). discriminate.
Qed.

(** C2: when a category's post permission is [CUSTOM] with a configured
    group [g], [can_post] returns (without raising) true exactly for
    superusers and for authenticated members of [g]; being an admin of [g]
    without being a member grants nothing. *)
Theorem can_post_custom_group (c : category) (g : group) (u : user)
    (Hperm : c_post_perms c = CUSTOM) (Hg : c_post_group c = Some g) :
  (exists b, Perm.can_post c u = Ok b /\
     (b = true <-> u_is_superuser u = true \/
                   (u_is_authenticated u = true /\ Perm.member g u))) /\
  (u_is_superuser u = false -> ~ Perm.member g u -> Perm.can_post c u = Ok false).
Proof.
  unfold Perm.can_post, Perm.custom_check, Perm.group_has_user.
  rewrite Hperm, Hg. cbn.
  destruct (u_is_superuser u) eqn:Hs, (u_is_authenticated u) eqn:Ha.
  - split; [exists true; split; [reflexivity|tauto]|intros Hf; discriminate Hf].
  - split; [exists true; split; [reflexivity|tauto]|intros Hf; discriminate Hf].
  - split.
    + exists (has_user g u). rewrite has_user_member. intuition discriminate.
    + intros _ Hn. destruct (has_user g u) eqn:Hh; [|reflexivity].
      exfalso. apply Hn. apply has_user_member. exact Hh.
  - split; [exists false; intuition discriminate|reflexivity].
Qed.

Definition grp_admin_only : group := mkGroup [1] [2].
Definition cat_custom_post : category :=
  mkCategory 1 0 None ALL ALL CUSTOM USERS None None (Some grp_admin_only) None.
Definition admin_not_member : user := mkUser (Some 2) "bob" "bob@example.org" true false false.

Lemma can_post_custom_group_witness :
  c_post_perms cat_custom_post = CUSTOM /\
  c_post_group cat_custom_post = Some grp_admin_only /\
  Perm.can_post cat_custom_post admin_not_member = Ok false.
Proof.
  split; [reflexivity|]. split; [reflexivity|].
  apply (proj2 (can_post_custom_group cat_custom_post grp_admin_only admin_not_member
                 eq_refl eq_refl)).
  - reflexivity.
  - intros (pk & Hpk & Hin). injection Hpk as <-. simpl in Hin. lia.
Defined.

(** C10: [get_post_count] gives the same count with and without [before]:
    the date-filtered queryset is discarded. *)
Theorem get_post_count_ignores_before (ps : list post) (u : user) (b : post) :
  Agg.get_post_count ps u (Some b) = Agg.get_post_count ps u None.
Proof. reflexivity. Qed.

Definition alice : user := mkUser (Some 1) "alice" "alice@example.org" true false false.
Definition bob : user := mkUser (Some 2) "bob" "bob@example.org" true false false.

(** The first row of a chain, stored with id 1, and its edit: a new row
    (no id yet) whose [previous] is row 1. *)
Definition post_orig : post := mkPost (Some 1) (Some alice) 1 10 (Some 10) None None false.
Definition post_edit : post := mkPost None (Some alice) 1 20 None None (Some 1) false.

(** A thread with no post, in a public category. *)
Definition thread_empty : thread := mkThread 1 1 false 0 "" "" "" "" None.
Definition cat1 : category := mkCategory 1 0 None ALL ALL USERS USERS None None None None.
Definition db_empty_thread : Agg.db := Agg.mkDB [thread_empty] [] [cat1].

(** C5 (code defect): on a thread with no post, [get_first_post] and
    [get_last_post] raise [IndexError] (the [except] clause only catches
    [DoesNotExist]), so [Thread.update] raises and never completes. *)
Theorem empty_thread_raises :
  Agg.post_set thread_empty db_empty_thread = [] /\
  Agg.get_first_post [] = Err IndexError /\
  Agg.get_last_post [] = Err IndexError /\
  Agg.Thread_update_id 1 db_empty_thread = Err IndexError.
Proof. repeat split; reflexivity. Qed.

(** A public thread with two posts, by alice (date 1) and bob (date 2). *)
Definition thread_two : thread := mkThread 1 1 false 2 "alice" "alice@example.org"
  "bob" "bob@example.org" (Some 2).
Definition post_a : post := mkPost (Some 1) (Some alice) 1 1 (Some 1) None None false.
Definition post_b : post := mkPost (Some 2) (Some bob) 1 2 (Some 2) None None false.
Definition db_two : Agg.db :=
  Agg.mkDB [thread_two] [post_a; post_b] [Agg.set_last_post cat1 (Some 2)].

(** C3 (code defect): deleting alice's post recomputes the thread in the
    [pre_delete] receiver, before the row is removed: afterwards the stored
    thread still counts two posts with alice as starter, while a scan of
    the remaining posts gives one post started by bob. *)
Theorem post_delete_stale_aggregates :
  exists d t t_scan,
    Agg.Post_delete 1 db_two = Ok d /\
    Agg.get_thread 1 d = Ok t /\
    Agg.posts d = [post_b] /\
    t_post_count t = 2 /\ t_starter t = "alice" /\
    Agg.thread_recompute t (Agg.post_set t d) = Ok t_scan /\
    t_post_count t_scan = 1 /\ t_starter t_scan = "bob".
Proof. do 3 eexists. repeat split; vm_compute; reflexivity. Qed.

Close Scope string_scope.

(** ** The descending sort: a permutation whose head has the largest date *)

Lemma insert_desc_perm (x : post) (l : list post) :
  Permutation (Agg.insert_desc x l) (x :: l).
Proof.
  induction l as [|y r IH]; cbn; [reflexivity|].
  destruct (p_date y <=? p_date x); [reflexivity|].
  rewrite IH. apply perm_swap.
Qed.

Lemma order_by_date_desc_perm (l : list post) :
  Permutation (Agg.order_by_date_desc l) l.
Proof.
  induction l as [|x r IH]; cbn; [reflexivity|].
  rewrite insert_desc_perm, IH. reflexivity.
Qed.

Lemma order_by_date_desc_head (l : list post) (x : post) (r : list post) :
  Agg.order_by_date_desc l = x :: r -> Forall (fun y => p_date y <= p_date x) l.
Proof.
  revert x r. induction l as [|a l IH]; intros x r Hs; [constructor|].
  cbn in Hs. destruct (Agg.order_by_date_desc l) as [|y r'] eqn:E.
  - assert (l = []) as ->.
    { apply Permutation_nil. rewrite <- E. first [apply order_by_date_desc_perm | symmetry; apply order_by_date_desc_perm]. }
    cbn in Hs. injection Hs as <- _. repeat constructor.
  - specialize (IH y r' eq_refl). cbn in Hs.
    destruct (p_date y <=? p_date a) eqn:Ha.
    + injection Hs as <- _. apply Nat.leb_le in Ha.
      constructor; [lia|]. eapply Forall_impl; [exact IH|]. intros z; cbn; lia.
    + injection Hs as <- _. apply Nat.leb_gt in Ha.
      constructor; [lia|exact IH].
Qed.

(** A post of a non-private thread of category [c]. *)
Definition public_post (c : category) (d : Agg.db) (q : post) : Prop :=
  exists t, In t (Agg.threads d) /\ t_id t = p_thread q /\
            t_category t = c_id c /\ t_private t = false.

Lemma public_filter_In (c : category) (d : Agg.db) (q : post) :
  In q (List.filter (fun p => existsb (Nat.eqb (p_thread p))
          (map t_id (List.filter (fun t => Nat.eqb (t_category t) (c_id c) &&
                                            negb (t_private t)) (Agg.threads d))))
        (Agg.posts d)) <->
  In q (Agg.posts d) /\ public_post c d q.
Proof.
  rewrite List.filter_In, existsb_exists. unfold public_post. split.
  - intros [Hin (k & Hk & Heq)]. split; [exact Hin|].
    apply in_map_iff in Hk as (t & <- & Ht). apply List.filter_In in Ht as [Ht Hc].
    apply andb_true_iff in Hc as [Hc Hp]. apply Nat.eqb_eq in Hc, Heq.
    exists t. repeat split; auto. destruct (t_private t); [discriminate|reflexivity].
  - intros [Hin (t & Ht & Hid & Hc & Hp)]. split; [exact Hin|].
    exists (t_id t). split.
    + apply in_map. apply List.filter_In. split; [exact Ht|].
      rewrite Hc, Hp, Nat.eqb_refl. reflexivity.
    + rewrite Hid. apply Nat.eqb_refl.
Qed.

(** Category [c] whose last public post was post 5, in thread 1 which has
    since been made private. *)
Definition thread_private : thread := mkThread 1 1 true 1 "alice" "alice@example.org"
  "alice" "alice@example.org" (Some 3).
Definition post_private : post := mkPost (Some 5) (Some alice) 1 3 (Some 3) None None false.
Definition cat_stale : category := Agg.set_last_post cat1 (Some 5).
Definition db_private : Agg.db := Agg.mkDB [thread_private] [post_private] [cat_stale].

(** C4 fails as stated: with all threads private, the category recompute
    leaves [last_post] at its previous value instead of null. *)
Lemma category_update_keeps_last_post :
  Forall (fun t => t_private t = true) (Agg.threads db_private) /\
  c_thread_count (Agg.Category_update cat_stale db_private) = 0 /\
  c_last_post (Agg.Category_update cat_stale db_private) = Some 5.
Proof. repeat constructor. Qed.

(** C4 (amended): after the category recompute, [thread_count] is the
    number of non-private threads of the category; when some post belongs
    to a non-private thread of the category, [last_post] is such a post
    with the latest date; when none does, [last_post] is left unchanged. *)
Theorem category_update_spec (c : category) (d : Agg.db) :
  c_thread_count (Agg.Category_update c d) =
    length (List.filter (fun t => bool_decide (t_category t = c_id c /\ t_private t = false))
              (Agg.threads d)) /\
  ((exists q, In q (Agg.posts d) /\ public_post c d q) ->
     exists q, c_last_post (Agg.Category_update c d) = p_id q /\
               In q (Agg.posts d) /\ public_post c d q /\
               forall q', In q' (Agg.posts d) -> public_post c d q' -> p_date q' <= p_date q) /\
  ((forall q, In q (Agg.posts d) -> ~ public_post c d q) ->
     c_last_post (Agg.Category_update c d) = c_last_post c).
Proof.
  unfold Agg.Category_update, Agg.Category_update_thread_count, Agg.Category_update_last_post.
  set (F := List.filter _ (Agg.posts d)).
  assert (HF : forall q, In q F <-> In q (Agg.posts d) /\ public_post c d q)
    by (intros q; apply public_filter_In).
  assert (Hcount : forall t, (Nat.eqb (t_category t) (c_id c) && negb (t_private t)) =
                             bool_decide (t_category t = c_id c /\ t_private t = false)).
  { intros t. destruct (Nat.eqb_spec (t_category t) (c_id c)), (t_private t);
      cbn; symmetry; (apply bool_decide_eq_true_2 || apply bool_decide_eq_false_2);
      intuition discriminate. }
  destruct (Agg.order_by_date_desc F) as [|x r] eqn:Hs; cbn.
  - split; [|split].
    + f_equal. apply List.filter_ext. exact Hcount.
    + intros (q & Hq). exfalso.
      assert (Hin : In q F) by (apply HF; exact Hq).
      apply (Permutation_in _ (Permutation_sym (order_by_date_desc_perm F))) in Hin.
      rewrite Hs in Hin. destruct Hin.
    + intros _. reflexivity.
  - split; [|split].
    + f_equal. apply List.filter_ext. exact Hcount.
    + intros _. exists x.
      assert (Hx : In x F).
      { apply (Permutation_in _ (order_by_date_desc_perm F)). rewrite Hs. left; reflexivity. }
      apply HF in Hx as [Hx1 Hx2]. split; [reflexivity|]. split; [exact Hx1|].
      split; [exact Hx2|]. intros q' Hq1 Hq2.
      pose proof (order_by_date_desc_head F x r Hs) as Hmax.
      rewrite List.Forall_forall in Hmax. apply Hmax, HF. auto.
    + intros Hnone. exfalso.
      assert (Hx : In x F).
      { apply (Permutation_in _ (order_by_date_desc_perm F)). rewrite Hs. left; reflexivity. }
      apply HF in Hx as [Hx1 Hx2]. exact (Hnone x Hx1 Hx2).
Qed.

(** ** Saving rows by primary key *)

Section Replace.
Context {A : Type} (id : A -> nat).

Lemma find_replace (k : nat) (x y : A) (l : list A) :
  id x = k -> List.find (fun a => Nat.eqb (id a) k) l = Some y ->
  List.find (fun a => Nat.eqb (id a) k) (map (fun a => if Nat.eqb (id a) (id x) then x else a) l)
    = Some x.
Proof.
  intros <-. induction l as [|a l IH]; cbn; [discriminate|].
  destruct (Nat.eqb (id a) (id x)) eqn:E.
  - intros _. cbn. rewrite Nat.eqb_refl. reflexivity.
  - intros Hf. cbn. rewrite E. exact (IH Hf).
Qed.

Lemma map_replace_idem (x : A) (l : list A) :
  map (fun a => if Nat.eqb (id a) (id x) then x else a)
      (map (fun a => if Nat.eqb (id a) (id x) then x else a) l) =
  map (fun a => if Nat.eqb (id a) (id x) then x else a) l.
Proof.
  rewrite map_map. apply map_ext. intros a.
  destruct (Nat.eqb (id a) (id x)) eqn:E; [now rewrite Nat.eqb_refl|now rewrite E].
Qed.

End Replace.

Lemma find_id_eq {A} (id : A -> nat) (k : nat) (l : list A) (y : A) :
  List.find (fun a => Nat.eqb (id a) k) l = Some y -> id y = k.
Proof.
  intros Hf. apply find_some in Hf as [_ Hk]. apply Nat.eqb_eq. exact Hk.
Qed.

(** ** The thread recompute, field by field *)

Ltac recompute_cases H :=
  unfold Agg.thread_recompute, Agg.update_last_update, Agg.update_first_post,
    Agg.update_last_post in H;
  destruct (Agg.get_last_post _) as [[?lp|]|?e] eqn:?El; cbn in H; try discriminate H;
  destruct (Agg.get_first_post _) as [[?fp|]|?e] eqn:?Ef; cbn in H; try discriminate H;
  try (destruct (Agg.user_fields fp) as [[?s1 ?e1]|?e] eqn:?Uf; cbn in H; try discriminate H);
  destruct (Agg.user_fields lp) as [[?s2 ?e2]|?e] eqn:?Ul; cbn in H; try discriminate H;
  injection H as <-.

Definition keep_post (p : post) : bool :=
  negb (p_censor p && match p_revision p with Some _ => true | None => false end).

Lemma thread_recompute_fields (t t' : thread) (ps : list post) :
  Agg.thread_recompute t ps = Ok t' ->
  t_id t' = t_id t /\ t_category t' = t_category t /\
  t_post_count t' = length (List.filter keep_post ps).
Proof. intros H. recompute_cases H; cbn; auto. Qed.

Lemma thread_recompute_idem (t t' : thread) (ps : list post) :
  Agg.thread_recompute t ps = Ok t' -> Agg.thread_recompute t' ps = Ok t'.
Proof.
  intros H. pose proof H as H0. recompute_cases H;
  unfold Agg.thread_recompute, Agg.update_last_update, Agg.update_first_post,
    Agg.update_last_post; rewrite ?El, ?Ef; cbn; rewrite ?Uf, ?Ul; cbn; reflexivity.
Qed.

(** ** The category recompute *)

Lemma Category_update_id_c (c : category) (d : Agg.db) :
  c_id (Agg.Category_update c d) = c_id c.
Proof.
  unfold Agg.Category_update, Agg.Category_update_thread_count,
    Agg.Category_update_last_post.
  destruct (Agg.qs_index0 _); reflexivity.
Qed.

Lemma Category_update_same_rows (c : category) (d1 d2 : Agg.db) :
  Agg.threads d1 = Agg.threads d2 -> Agg.posts d1 = Agg.posts d2 ->
  Agg.Category_update c d1 = Agg.Category_update c d2.
Proof.
  intros Ht Hp. unfold Agg.Category_update, Agg.Category_update_thread_count,
    Agg.Category_update_last_post. rewrite Ht, Hp. reflexivity.
Qed.

Lemma Category_update_idem (c : category) (d : Agg.db) :
  Agg.Category_update (Agg.Category_update c d) d = Agg.Category_update c d.
Proof.
  unfold Agg.Category_update, Agg.Category_update_thread_count,
    Agg.Category_update_last_post.
  destruct (Agg.qs_index0 (Agg.order_by_date_desc (List.filter
     (fun p => existsb (Nat.eqb (p_thread p)) (map t_id (List.filter
        (fun t => Nat.eqb (t_category t) (c_id c) && negb (t_private t)) (Agg.threads d))))
     (Agg.posts d)))) eqn:E; cbn; rewrite E; destruct c; reflexivity.
Qed.

Lemma Category_update_id_rows (k : nat) (d d' : Agg.db) :
  Agg.Category_update_id k d = Ok d' ->
  Agg.threads d' = Agg.threads d /\ Agg.posts d' = Agg.posts d.
Proof.
  unfold Agg.Category_update_id, Agg.get_category.
  destruct (List.find _ _); cbn; intros H; [|discriminate].
  injection H as <-. split; reflexivity.
Qed.

Lemma Category_update_id_idem (k : nat) (d : Agg.db) :
  bind (Agg.Category_update_id k d) (Agg.Category_update_id k) = Agg.Category_update_id k d.
Proof.
  destruct (Agg.Category_update_id k d) as [d1|e] eqn:Hcu; cbn; [|reflexivity].
  unfold Agg.Category_update_id, Agg.get_category in Hcu |- *.
  destruct (List.find (fun c => Nat.eqb (c_id c) k) (Agg.categories d)) as [c|] eqn:Hf;
    cbn in Hcu; [|discriminate].
  injection Hcu as <-.
  pose proof (find_id_eq c_id k _ c Hf) as Hk.
  set (c1 := Agg.Category_update c d).
  assert (Hc1 : c_id c1 = k) by (subst c1; rewrite Category_update_id_c; exact Hk).
  unfold Agg.save_category, Agg.set_categories. cbn [Agg.categories Agg.threads Agg.posts].
  rewrite (find_replace c_id k c1 c _ Hc1 Hf). cbn [bind].
  rewrite (Category_update_same_rows c1 (Agg.mkDB _ _ _) d eq_refl eq_refl).
  subst c1. rewrite Category_update_idem.
  rewrite map_replace_idem. reflexivity.
Qed.

(** A post is counted unless it is censored and a revision row. *)
Definition counted (p : post) : Prop := ~ (p_censor p = true /\ p_revision p <> None).

Lemma keep_post_counted (p : post) : keep_post p = bool_decide (counted p).
Proof.
  unfold keep_post, counted.
  destruct (p_censor p), (p_revision p); cbn; symmetry;
    (apply bool_decide_eq_true_2 || apply bool_decide_eq_false_2);
    intuition congruence.
Qed.

Lemma thread_update_saved (tid : nat) (d d' : Agg.db) :
  Agg.Thread_update_id tid d = Ok d' ->
  exists t0 t1, List.find (fun t => Nat.eqb (t_id t) tid) (Agg.threads d) = Some t0 /\
    Agg.thread_recompute t0 (Agg.post_set t0 d) = Ok t1 /\
    Agg.Category_update_id (t_category t1) (Agg.save_thread t1 d) = Ok d'.
Proof.
  unfold Agg.Thread_update_id, Agg.get_thread.
  destruct (List.find _ _) as [t0|] eqn:Hf; cbn; [|discriminate].
  unfold Agg.Thread_update.
  destruct (Agg.thread_recompute t0 _) as [t1|] eqn:Hr; cbn; [|discriminate].
  intros H. exists t0, t1. auto.
Qed.

(** C1: once the thread recompute completes, the stored thread's
    [post_count] is the number of its posts that are not both censored and
    a revision row; a censored post without [revision] is counted. *)
Theorem thread_update_post_count (tid : nat) (d d' : Agg.db)
    (H : Agg.Thread_update_id tid d = Ok d') :
  exists t, Agg.get_thread tid d' = Ok t /\
    t_post_count t = length (List.filter (fun p => bool_decide (counted p))
                               (List.filter (fun p => Nat.eqb (p_thread p) tid) (Agg.posts d))).
Proof.
  destruct (thread_update_saved tid d d' H) as (t0 & t1 & Hf & Hr & Hc).
  apply Category_update_id_rows in Hc as [Ht _].
  destruct (thread_recompute_fields _ _ _ Hr) as (Hid & _ & Hcount).
  pose proof (find_id_eq t_id tid _ t0 Hf) as Htid.
  exists t1. split.
  - unfold Agg.get_thread. rewrite Ht. unfold Agg.save_thread, Agg.set_threads.
    cbn [Agg.threads]. rewrite (find_replace t_id tid t1 t0); [reflexivity|congruence|exact Hf].
  - rewrite Hcount. unfold Agg.post_set. rewrite Htid. f_equal.
    apply List.filter_ext. apply keep_post_counted.
Qed.

(** A thread with a censored original (counted), a censored revision row
    (not counted) and an ordinary post. *)
Definition post_c1 : post := mkPost (Some 1) (Some alice) 1 1 (Some 1) None None true.
Definition post_c2 : post := mkPost (Some 2) (Some bob) 1 2 (Some 2) (Some 3) None true.
Definition post_c3 : post := mkPost (Some 3) (Some bob) 1 3 (Some 3) None None false.
Definition db_censor : Agg.db :=
  Agg.mkDB [thread_empty] [post_c1; post_c2; post_c3] [cat1].
Definition db_censor_updated : Agg.db :=
  Eval vm_compute in
  match Agg.Thread_update_id 1 db_censor with Ok d => d | Err _ => db_censor end.

Lemma thread_update_post_count_witness :
  Agg.Thread_update_id 1 db_censor = Ok db_censor_updated /\
  exists t, Agg.get_thread 1 db_censor_updated = Ok t /\ t_post_count t = 2.
Proof.
  assert (H : Agg.Thread_update_id 1 db_censor = Ok db_censor_updated) by reflexivity.
  split; [exact H|].
  destruct (thread_update_post_count 1 db_censor db_censor_updated H) as (t & Ht & Hc).
  exists t. split; [exact Ht|]. rewrite Hc. reflexivity.
Defined.

(** C9: the thread recompute and the category recompute are idempotent:
    a second run right after the first leaves the rows as the first run
    left them (and fails exactly when the first one fails). *)
Theorem recompute_idempotent :
  (forall (tid : nat) (d : Agg.db),
     bind (Agg.Thread_update_id tid d) (Agg.Thread_update_id tid) = Agg.Thread_update_id tid d) /\
  (forall (cid : nat) (d : Agg.db),
     bind (Agg.Category_update_id cid d) (Agg.Category_update_id cid) = Agg.Category_update_id cid d).
Proof.
  split; [|exact Category_update_id_idem].
  intros tid d. destruct (Agg.Thread_update_id tid d) as [d1|e] eqn:H; cbn; [|reflexivity].
  destruct (thread_update_saved tid d d1 H) as (t0 & t1 & Hf & Hr & Hc).
  pose proof (Category_update_id_idem (t_category t1) (Agg.save_thread t1 d)) as Hidem.
  rewrite Hc in Hidem. cbn in Hidem.
  apply Category_update_id_rows in Hc as [Ht Hp].
  destruct (thread_recompute_fields _ _ _ Hr) as (Hid & _ & _).
  pose proof (find_id_eq t_id tid _ t0 Hf) as Htid.
  unfold Agg.Thread_update_id, Agg.get_thread. rewrite Ht.
  unfold Agg.save_thread at 1, Agg.set_threads. cbn [Agg.threads].
  rewrite (find_replace t_id tid t1 t0); [|congruence|exact Hf]. cbn [bind].
  unfold Agg.Thread_update.
  assert (Hps : Agg.post_set t1 d1 = Agg.post_set t0 d).
  { unfold Agg.post_set. rewrite Hp, Hid. reflexivity. }
  rewrite Hps, (thread_recompute_idem _ _ _ Hr). cbn [bind].
  assert (Hs : Agg.save_thread t1 d1 = d1).
  { unfold Agg.save_thread at 1, Agg.set_threads at 1.
    transitivity (Agg.mkDB (Agg.threads d1) (Agg.posts d1) (Agg.categories d1));
      [|destruct d1; reflexivity].
    f_equal. rewrite Ht. unfold Agg.save_thread, Agg.set_threads. cbn [Agg.threads].
    apply map_replace_idem. }
  rewrite Hs. exact Hidem.
Qed.

(** ** The ban registry *)

Lemma ban_op_refreshes {K : Type} `{Countable K} (op : Bans.ban_op K) (s s' : Bans.ban_state K) :
  Bans.apply_ban_op op s = Ok s' -> Bans.cache s' = list_to_set (map snd (Bans.store s')).
Proof.
  destruct op as [rid k|rid]; cbn.
  - destruct (existsb _ _); [discriminate|]. intros Hs. injection Hs as <-. reflexivity.
  - intros Hs. injection Hs as <-. reflexivity.
Qed.

(** C7: every saved or deleted [UserBan] or [IPBan] row leaves the cached
    set equal to the keys in the store; when the cache has been refreshed
    and user [u] has no ban row, [is_user_banned u] is false, and it is
    true after a ban row for [u] is created (a new primary key [rid]). *)
Theorem ban_cache_reload (s0 s : Bans.ban_state nat) (op : Bans.ban_op nat)
    (u : user) (uid rid : nat)
    (Hop : Bans.apply_ban_op op s0 = Ok s) (Hpk : u_pk u = Some uid)
    (Hnone : uid ∉ map snd (Bans.store s)) (Hrid : rid ∉ map fst (Bans.store s)) :
  (forall (o : Bans.ban_op nat) (b b' : Bans.ban_state nat),
     Bans.apply_ban_op o b = Ok b' -> Bans.cache b' = list_to_set (map snd (Bans.store b'))) /\
  (forall (o : Bans.ban_op string) (b b' : Bans.ban_state string),
     Bans.apply_ban_op o b = Ok b' -> Bans.cache b' = list_to_set (map snd (Bans.store b'))) /\
  Bans.is_user_banned u s = false /\
  exists s', Bans.apply_ban_op (Bans.Save rid uid) s = Ok s' /\
             Bans.is_user_banned u s' = true.
Proof.
  split; [intros o b b'; apply ban_op_refreshes|].
  split; [intros o b b'; apply ban_op_refreshes|].
  pose proof (ban_op_refreshes op s0 s Hop) as Hc.
  unfold Bans.is_user_banned, Bans.is_banned. rewrite Hpk. split.
  - apply bool_decide_eq_false_2. rewrite Hc. rewrite elem_of_list_to_set. exact Hnone.
  - cbn.
    assert (Hu : existsb (fun r => bool_decide (snd r = uid) && negb (Nat.eqb (fst r) rid))
                   (Bans.store s) = false).
    { apply not_true_is_false. intros Hx. apply existsb_exists in Hx as ([r k] & Hin & Hx).
      apply andb_true_iff in Hx as [Hx _]. apply bool_decide_eq_true_1 in Hx. cbn in Hx. subst k.
      apply Hnone. apply list_elem_of_In. apply in_map_iff. exists (r, uid). auto. }
    assert (Hr : existsb (fun r => Nat.eqb (fst r) rid) (Bans.store s) = false).
    { apply not_true_is_false. intros Hx. apply existsb_exists in Hx as ([r k] & Hin & Hx).
      apply Nat.eqb_eq in Hx. cbn in Hx. subst r.
      apply Hrid. apply list_elem_of_In. apply in_map_iff. exists (rid, k). auto. }
    rewrite Hu, Hr. eexists. split; [reflexivity|].
    apply bool_decide_eq_true_2. cbn. rewrite elem_of_list_to_set.
    rewrite map_app. apply elem_of_app. right. left.
Qed.

Definition ban_state_one : Bans.ban_state nat := Bans.mkBanState [(1, 7)] ∅.
Definition ban_state_refreshed : Bans.ban_state nat :=
  Bans.mkBanState [(1, 7)] (list_to_set [7]).

Lemma ban_cache_reload_witness :
  Bans.apply_ban_op (Bans.Delete 9) ban_state_one = Ok ban_state_refreshed /\
  Bans.is_user_banned alice ban_state_refreshed = false /\
  exists s', Bans.apply_ban_op (Bans.Save 2 1) ban_state_refreshed = Ok s' /\
             Bans.is_user_banned alice s' = true.
Proof.
  assert (Hop : Bans.apply_ban_op (Bans.Delete 9) ban_state_one = Ok ban_state_refreshed)
    by reflexivity.
  split; [exact Hop|].
  refine (proj2 (proj2 (ban_cache_reload ban_state_one ban_state_refreshed (Bans.Delete 9)
                          alice 1 2 Hop eq_refl _ _))).
  - cbn. intros Hin. apply list_elem_of_singleton in Hin. discriminate.
  - cbn. intros Hin. apply list_elem_of_singleton in Hin. discriminate.
Defined.

(** * Further properties of the models *)

(** ** Permission evaluator *)

(** [can_post] and [can_create_thread] only grant for [USERS] and
    [CUSTOM]: at level [ALL] (offered by [PERM_CHOICES_RESTRICTED]) or
    [NOBODY] they refuse every user, superusers included. *)
Theorem post_thread_perms_all_refuse (c : category) (u : user) :
  (c_post_perms c = ALL \/ c_post_perms c = NOBODY -> Perm.can_post c u = Ok false) /\
  (c_new_thread_perms c = ALL \/ c_new_thread_perms c = NOBODY ->
     Perm.can_create_thread c u = Ok false).
Proof.
  unfold Perm.can_post, Perm.can_create_thread.
  split; intros [-> | ->]; reflexivity.
Qed.

(** [can_view] and [can_read]: level [ALL] grants every user (anonymous
    included), level [USERS] grants exactly authenticated users, and any
    level other than [ALL], [USERS], [CUSTOM] refuses. *)
Theorem view_read_levels (c : category) (u : user) :
  (c_view_perms c = ALL -> Perm.can_view c u = Ok true) /\
  (c_view_perms c = USERS -> Perm.can_view c u = Ok (u_is_authenticated u)) /\
  (c_view_perms c = NOBODY -> Perm.can_view c u = Ok false) /\
  (c_read_perms c = ALL -> Perm.can_read c u = Ok true) /\
  (c_read_perms c = USERS -> Perm.can_read c u = Ok (u_is_authenticated u)) /\
  (c_read_perms c = NOBODY -> Perm.can_read c u = Ok false).
Proof.
  unfold Perm.can_view, Perm.can_read.
  repeat split; intros ->; reflexivity.
Qed.

(** An anonymous actor (not authenticated, not superuser) is refused by
    every check unless the level is [ALL] for viewing or reading; no check
    raises for it, even at [CUSTOM] with no group configured. *)
Theorem anonymous_refused (c : category) (u : user)
    (Ha : u_is_authenticated u = false) (Hs : u_is_superuser u = false) :
  Perm.can_post c u = Ok false /\ Perm.can_create_thread c u = Ok false /\
  (c_view_perms c <> ALL -> Perm.can_view c u = Ok false) /\
  (c_read_perms c <> ALL -> Perm.can_read c u = Ok false).
Proof.
  unfold Perm.can_post, Perm.can_create_thread, Perm.can_view, Perm.can_read,
    Perm.custom_check.
  rewrite Ha, Hs.
  repeat split;
    repeat match goal with
    | |- context [Nat.eqb ?a ?b] => destruct (Nat.eqb_spec a b)
    end; intros; try reflexivity; contradiction.
Qed.

Definition anonymous : user := mkUser None "" "" false false false.

Lemma anonymous_refused_witness :
  u_is_authenticated anonymous = false /\ u_is_superuser anonymous = false /\
  Perm.can_post cat_custom_post anonymous = Ok false.
Proof.
  split; [reflexivity|]. split; [reflexivity|].
  exact (proj1 (anonymous_refused cat_custom_post anonymous eq_refl eq_refl)).
Defined.

(** At level [CUSTOM] with no group configured, a superuser is granted
    (the [or] short-circuits), and an authenticated non-superuser makes the
    check raise [AttributeError] ([None.has_user]). *)
Theorem custom_without_group (c : category) (u : user)
    (Hp : c_post_perms c = CUSTOM) (Hg : c_post_group c = None) :
  (u_is_superuser u = true -> Perm.can_post c u = Ok true) /\
  (u_is_superuser u = false -> u_is_authenticated u = true ->
     Perm.can_post c u = Err AttributeError).
Proof.
  unfold Perm.can_post, Perm.custom_check, Perm.group_has_user. rewrite Hp, Hg. cbn.
  split; intros Hs; rewrite Hs; [reflexivity|]. intros Ha. rewrite Ha. reflexivity.
Qed.

Definition cat_custom_nogroup : category :=
  mkCategory 2 0 None ALL ALL CUSTOM USERS None None None None.

Lemma custom_without_group_witness :
  c_post_perms cat_custom_nogroup = CUSTOM /\ c_post_group cat_custom_nogroup = None /\
  Perm.can_post cat_custom_nogroup alice = Err AttributeError.
Proof.
  split; [reflexivity|]. split; [reflexivity|].
  exact (proj2 (custom_without_group cat_custom_nogroup alice eq_refl eq_refl) eq_refl eq_refl).
Defined.

(** [Group.has_user] and [Group.has_admin] test the actor's primary key
    against the member list and the admin list respectively; the
    anonymous user (no pk) is neither. *)
Theorem group_membership (g : group) (u : user) :
  (has_user g u = true <-> exists pk, u_pk u = Some pk /\ In pk (g_users g)) /\
  (has_admin g u = true <-> exists pk, u_pk u = Some pk /\ In pk (g_admins g)) /\
  (u_pk u = None -> has_user g u = false /\ has_admin g u = false).
Proof.
  split; [apply has_user_member|]. split.
  - unfold has_admin. destruct (u_pk u) as [pk|].
    + split.
      * intros H. destruct (List.filter (fun x => Nat.eqb x pk) (g_admins g)) as [|y l] eqn:E;
          [discriminate|].
        assert (Hy : In y (List.filter (fun x => Nat.eqb x pk) (g_admins g)))
          by (rewrite E; left; reflexivity).
        apply List.filter_In in Hy as [Hin Heq]. apply Nat.eqb_eq in Heq. subst. eauto.
      * intros (pk' & Hpk & Hin). injection Hpk as ->.
        destruct (List.filter (fun x => Nat.eqb x pk') (g_admins g)) as [|y l] eqn:E;
          [|reflexivity].
        assert (Hf : In pk' (List.filter (fun x => Nat.eqb x pk') (g_admins g))).
        { apply List.filter_In. split; [exact Hin|apply Nat.eqb_refl]. }
        rewrite E in Hf. destruct Hf.
    + split; [discriminate|]. intros (pk & H & _). discriminate.
  - unfold has_user, has_admin. intros ->. split; reflexivity.
Qed.

(** ** Thread recompute: the fields read from the first and last post *)

Lemma insert_asc_perm (x : post) (l : list post) :
  Permutation (Agg.insert_asc x l) (x :: l).
Proof.
  induction l as [|y r IH]; cbn; [reflexivity|].
  destruct (p_date x <=? p_date y); [reflexivity|].
  rewrite IH. apply perm_swap.
Qed.

Lemma order_by_date_perm (l : list post) : Permutation (Agg.order_by_date l) l.
Proof.
  induction l as [|x r IH]; cbn; [reflexivity|].
  rewrite insert_asc_perm, IH. reflexivity.
Qed.

Lemma order_by_date_head (l : list post) (x : post) (r : list post) :
  Agg.order_by_date l = x :: r -> Forall (fun y => p_date x <= p_date y) l.
Proof.
  revert x r. induction l as [|a l IH]; intros x r Hs; [constructor|].
  cbn in Hs. destruct (Agg.order_by_date l) as [|y r'] eqn:E.
  - assert (l = []) as ->.
    { apply Permutation_nil. rewrite <- E.
      first [apply order_by_date_perm | symmetry; apply order_by_date_perm]. }
    cbn in Hs. injection Hs as <- _. repeat constructor.
  - specialize (IH y r' eq_refl). cbn in Hs.
    destruct (p_date a <=? p_date y) eqn:Ha.
    + injection Hs as <- _. apply Nat.leb_le in Ha.
      constructor; [lia|]. eapply Forall_impl; [exact IH|]. intros z; cbn; lia.
    + injection Hs as <- _. apply Nat.leb_gt in Ha.
      constructor; [lia|exact IH].
Qed.

Lemma get_last_post_some (ps : list post) (p : post) :
  Agg.get_last_post ps = Ok (Some p) ->
  In p ps /\ forall q, In q ps -> p_date q <= p_date p.
Proof.
  unfold Agg.get_last_post, Agg.except_DoesNotExist, Agg.qs_index0.
  destruct (Agg.order_by_date_desc ps) as [|x r] eqn:E; [discriminate|].
  intros H. injection H as <-. split.
  - apply (Permutation_in _ (order_by_date_desc_perm ps)). rewrite E. left; reflexivity.
  - apply List.Forall_forall. exact (order_by_date_desc_head ps x r E).
Qed.

Lemma get_first_post_some (ps : list post) (p : post) :
  Agg.get_first_post ps = Ok (Some p) ->
  In p ps /\ forall q, In q ps -> p_date p <= p_date q.
Proof.
  unfold Agg.get_first_post, Agg.except_DoesNotExist, Agg.qs_index0.
  destruct (Agg.order_by_date ps) as [|x r] eqn:E; [discriminate|].
  intros H. injection H as <-. split.
  - apply (Permutation_in _ (order_by_date_perm ps)). rewrite E. left; reflexivity.
  - apply List.Forall_forall. exact (order_by_date_head ps x r E).
Qed.

Lemma user_fields_ok (p : post) (s e : string) :
  Agg.user_fields p = Ok (s, e) -> exists u, p_user p = Some u /\ u_username u = s /\ u_email u = e.
Proof.
  unfold Agg.user_fields. destruct (p_user p) as [u|]; [|discriminate].
  intros H. injection H as <- <-. eauto.
Qed.

(** After the thread recompute completes, the stored thread's
    [last_update] is the latest date among its posts and [last_poster] /
    [last_poster_email] are the author of a post with that date; [starter]
    / [starter_email] are the author of a post with the earliest date. *)
Theorem thread_update_first_last (tid : nat) (d d' : Agg.db)
    (H : Agg.Thread_update_id tid d = Ok d') :
  exists t, Agg.get_thread tid d' = Ok t /\
  let ps := List.filter (fun p => Nat.eqb (p_thread p) tid) (Agg.posts d) in
  (exists p u, In p ps /\ (forall q, In q ps -> p_date q <= p_date p) /\
     p_user p = Some u /\ t_last_update t = Some (p_date p) /\
     t_last_poster t = u_username u /\ t_last_poster_email t = u_email u) /\
  (exists p u, In p ps /\ (forall q, In q ps -> p_date p <= p_date q) /\
     p_user p = Some u /\ t_starter t = u_username u /\ t_starter_email t = u_email u).
Proof.
  destruct (thread_update_saved tid d d' H) as (t0 & t1 & Hf & Hr & Hc).
  apply Category_update_id_rows in Hc as [Ht _].
  destruct (thread_recompute_fields _ _ _ Hr) as (Hid & _ & _).
  pose proof (find_id_eq t_id tid _ t0 Hf) as Htid.
  exists t1. split.
  - unfold Agg.get_thread. rewrite Ht. unfold Agg.save_thread, Agg.set_threads.
    cbn [Agg.threads]. rewrite (find_replace t_id tid t1 t0); [reflexivity|congruence|exact Hf].
  - cbn zeta. replace (List.filter _ (Agg.posts d)) with (Agg.post_set t0 d)
      by (unfold Agg.post_set; rewrite Htid; reflexivity).
    recompute_cases Hr.
    + apply get_last_post_some in El as [Hin Hmax].
      apply get_first_post_some in Ef as [Hin' Hmin].
      apply user_fields_ok in Uf as (u1 & Hu1 & <- & <-).
      apply user_fields_ok in Ul as (u2 & Hu2 & <- & <-).
      split; [exists lp, u2|exists fp, u1]; cbn; repeat split; auto.
    + exfalso. apply get_last_post_some in El as [Hin _].
      unfold Agg.get_first_post, Agg.except_DoesNotExist, Agg.qs_index0 in Ef.
      destruct (Agg.order_by_date (Agg.post_set t0 d)) eqn:E; [|discriminate].
      apply (Permutation_in _ (Permutation_sym (order_by_date_perm _))) in Hin.
      rewrite E in Hin. destruct Hin.
Qed.

Lemma thread_update_first_last_witness :
  Agg.Thread_update_id 1 db_censor = Ok db_censor_updated /\
  exists t, Agg.get_thread 1 db_censor_updated = Ok t /\ t_starter t = "alice"%string.
Proof.
  assert (H : Agg.Thread_update_id 1 db_censor = Ok db_censor_updated) by reflexivity.
  split; [exact H|].
  destruct (thread_update_first_last 1 db_censor db_censor_updated H)
    as (t & Ht & _ & (p & u & Hin & Hmin & Hu & Hs & _)).
  exists t. split; [exact Ht|]. rewrite Hs.
  cbn in Hin. destruct Hin as [<-|[<-|[<-|[]]]]; cbn in Hu; injection Hu as <-;
    [reflexivity| |]; exfalso; specialize (Hmin post_c1 (or_introl eq_refl)); cbn in Hmin; lia.
Defined.

Lemma Category_update_id_saved (k : nat) (d d' : Agg.db) :
  Agg.Category_update_id k d = Ok d' ->
  exists c, List.find (fun c => Nat.eqb (c_id c) k) (Agg.categories d) = Some c /\
    Agg.categories d' =
      map (fun c' => if Nat.eqb (c_id c') (c_id (Agg.Category_update c d))
                     then Agg.Category_update c d else c') (Agg.categories d).
Proof.
  unfold Agg.Category_update_id, Agg.get_category.
  destruct (List.find _ _) as [c|] eqn:Hf; cbn; [|discriminate].
  intros H. injection H as <-. exists c. split; reflexivity.
Qed.

(** After the thread recompute completes, the thread's category, loaded
    again, has [thread_count] equal to the number of non-private threads
    of that category: the [post_save] receiver of [Thread] recomputes it. *)
Theorem thread_update_category_count (tid : nat) (d d' : Agg.db)
    (H : Agg.Thread_update_id tid d = Ok d') :
  exists t c, Agg.get_thread tid d' = Ok t /\ Agg.get_category (t_category t) d' = Ok c /\
    c_thread_count c = length (List.filter
      (fun t' => bool_decide (t_category t' = t_category t /\ t_private t' = false))
      (Agg.threads d')).
Proof.
  destruct (thread_update_saved tid d d' H) as (t0 & t1 & Hf & Hr & Hc).
  pose proof (Category_update_id_rows _ _ _ Hc) as [Ht Hp].
  destruct (Category_update_id_saved _ _ _ Hc) as (c & Hfc & Hcs).
  destruct (thread_recompute_fields _ _ _ Hr) as (Hid & _ & _).
  pose proof (find_id_eq t_id tid _ t0 Hf) as Htid.
  pose proof (find_id_eq c_id _ _ c Hfc) as Hcid.
  exists t1, (Agg.Category_update c (Agg.save_thread t1 d)). split; [|split].
  - unfold Agg.get_thread. rewrite Ht. unfold Agg.save_thread, Agg.set_threads.
    cbn [Agg.threads]. rewrite (find_replace t_id tid t1 t0); [reflexivity|congruence|exact Hf].
  - unfold Agg.get_category. rewrite Hcs.
    rewrite (find_replace c_id (t_category t1) _ c); [reflexivity| |exact Hfc].
    rewrite Category_update_id_c. exact Hcid.
  - rewrite (proj1 (category_update_spec c _)), Hcid, Ht. reflexivity.
Qed.

Lemma thread_update_category_count_witness :
  Agg.Thread_update_id 1 db_censor = Ok db_censor_updated /\
  exists t c, Agg.get_thread 1 db_censor_updated = Ok t /\
    Agg.get_category (t_category t) db_censor_updated = Ok c /\ c_thread_count c = 1.
Proof.
  assert (H : Agg.Thread_update_id 1 db_censor = Ok db_censor_updated) by reflexivity.
  split; [exact H|].
  destruct (thread_update_category_count 1 db_censor db_censor_updated H)
    as (t & c & Ht & Hc & Hn).
  exists t, c. split; [exact Ht|]. split; [exact Hc|]. rewrite Hn.
  assert (Ht' : t_category t = 1).
  { vm_compute in Ht. injection Ht as <-. reflexivity. }
  rewrite Ht'. reflexivity.
Defined.

(** The thread recompute never writes a post, and leaves every thread row
    with another id and every category row with another id than the
    thread's category as it was. *)
Theorem thread_update_frame (tid : nat) (d d' : Agg.db)
    (H : Agg.Thread_update_id tid d = Ok d') :
  Agg.posts d' = Agg.posts d /\
  (forall t, t_id t <> tid -> (In t (Agg.threads d') <-> In t (Agg.threads d))) /\
  exists t, Agg.get_thread tid d = Ok t /\
    forall c, c_id c <> t_category t ->
      (In c (Agg.categories d') <-> In c (Agg.categories d)).
Proof.
  destruct (thread_update_saved tid d d' H) as (t0 & t1 & Hf & Hr & Hc).
  pose proof (Category_update_id_rows _ _ _ Hc) as [Ht Hp].
  destruct (Category_update_id_saved _ _ _ Hc) as (c0 & Hfc & Hcs).
  destruct (thread_recompute_fields _ _ _ Hr) as (Hid & Hcat & _).
  pose proof (find_id_eq t_id tid _ t0 Hf) as Htid.
  pose proof (find_id_eq c_id _ _ c0 Hfc) as Hcid.
  split; [exact Hp|]. split.
  - intros t Hne. rewrite Ht. unfold Agg.save_thread, Agg.set_threads. cbn [Agg.threads].
    rewrite in_map_iff. split.
    + intros (t' & Heq & Hin). destruct (Nat.eqb_spec (t_id t') (t_id t1)).
      * subst t. congruence.
      * subst t'. exact Hin.
    + intros Hin. exists t. split; [|exact Hin].
      destruct (Nat.eqb_spec (t_id t) (t_id t1)); [congruence|reflexivity].
  - exists t0. split; [unfold Agg.get_thread; rewrite Hf; reflexivity|].
    intros c Hne. rewrite Hcs. cbn [Agg.categories Agg.save_thread Agg.set_threads].
    rewrite Category_update_id_c, in_map_iff. split.
    + intros (c' & Heq & Hin). destruct (Nat.eqb_spec (c_id c') (c_id c0)).
      * subst c. rewrite Category_update_id_c in Hne. congruence.
      * subst c'. exact Hin.
    + intros Hin. exists c. split; [|exact Hin].
      destruct (Nat.eqb_spec (c_id c) (c_id c0)); [congruence|reflexivity].
Qed.

Lemma thread_update_frame_witness :
  Agg.Thread_update_id 1 db_censor = Ok db_censor_updated /\
  Agg.posts db_censor_updated = Agg.posts db_censor.
Proof.
  assert (H : Agg.Thread_update_id 1 db_censor = Ok db_censor_updated) by reflexivity.
  split; [exact H|]. exact (proj1 (thread_update_frame 1 db_censor db_censor_updated H)).
Defined.

(** ** Visible post count *)

Lemma filter_length_le {A} (f : A -> bool) (l : list A) :
  length (List.filter f l) <= length l.
Proof.
  induction l as [|x l IH]; cbn; [lia|]. destruct (f x); cbn; lia.
Qed.

Lemma filter_filter {A} (f g : A -> bool) (l : list A) :
  List.filter g (List.filter f l) = List.filter (fun x => f x && g x) l.
Proof.
  induction l as [|x l IH]; cbn; [reflexivity|].
  destruct (f x); cbn; [destruct (g x); cbn|]; rewrite IH; reflexivity.
Qed.

(** [get_post_count] counts the rows with no [revision]: all of them for
    staff, and for other users those that are also not censored; so a
    non-staff count never exceeds the staff count, and the two agree when
    no post is censored. *)
Theorem get_post_count_staff (ps : list post) (u s : user) (b : option post)
    (Hu : u_is_staff u = false) (Hs : u_is_staff s = true) :
  Agg.get_post_count ps s b =
    length (List.filter (fun p => match p_revision p with None => true | Some _ => false end) ps) /\
  Agg.get_post_count ps u b =
    length (List.filter (fun p => match p_revision p with
                                  | None => negb (p_censor p) | Some _ => false end) ps) /\
  Agg.get_post_count ps u b <= Agg.get_post_count ps s b /\
  ((forall p, In p ps -> p_censor p = false) ->
     Agg.get_post_count ps u b = Agg.get_post_count ps s b).
Proof.
  unfold Agg.get_post_count. rewrite Hu, Hs. cbn. split; [reflexivity|]. split.
  { rewrite filter_filter. f_equal. apply List.filter_ext. intros p.
    destruct (p_revision p); reflexivity. }
  split.
  - apply filter_length_le.
  - intros Hc. f_equal. rewrite (List.filter_ext_in _ (fun _ => true)).
    + induction (List.filter _ ps); cbn; congruence.
    + intros p Hin. apply List.filter_In in Hin as [Hin _]. rewrite (Hc p Hin). reflexivity.
Qed.

Definition staff_user : user := mkUser (Some 3) "mod" "mod@example.org" true false true.

Lemma get_post_count_staff_witness :
  u_is_staff alice = false /\ u_is_staff staff_user = true /\
  Agg.get_post_count [post_c1; post_c2; post_c3] alice None = 1 /\
  Agg.get_post_count [post_c1; post_c2; post_c3] staff_user None = 2.
Proof.
  split; [reflexivity|]. split; [reflexivity|].
  destruct (get_post_count_staff [post_c1; post_c2; post_c3] alice staff_user None
              eq_refl eq_refl) as (Hs & Hu & _).
  rewrite Hu, Hs. split; reflexivity.
Defined.

(** ** [Post.save] and [Post.management_save] *)

Lemma Thread_update_id_posts (tid : nat) (d d' : Agg.db) :
  Agg.Thread_update_id tid d = Ok d' -> Agg.posts d' = Agg.posts d.
Proof.
  intros H. destruct (thread_update_saved tid d d' H) as (t0 & t1 & _ & _ & Hc).
  apply Category_update_id_rows in Hc as [_ Hp]. exact Hp.
Qed.

Lemma Thread_update_id_fresh (tid : nat) (d d' : Agg.db) :
  Agg.Thread_update_id tid d = Ok d' ->
  exists t, Agg.get_thread tid d' = Ok t /\ Agg.thread_recompute t (Agg.post_set t d') = Ok t.
Proof.
  intros H. destruct (thread_update_saved tid d d' H) as (t0 & t1 & Hf & Hr & Hc).
  apply Category_update_id_rows in Hc as [Ht Hp].
  destruct (thread_recompute_fields _ _ _ Hr) as (Hid & _ & _).
  pose proof (find_id_eq t_id tid _ t0 Hf) as Htid.
  exists t1. split.
  - unfold Agg.get_thread. rewrite Ht. unfold Agg.save_thread, Agg.set_threads.
    cbn [Agg.threads]. rewrite (find_replace t_id tid t1 t0); [reflexivity|congruence|exact Hf].
  - assert (Hps : Agg.post_set t1 d' = Agg.post_set t0 d).
    { unfold Agg.post_set. rewrite Hp, Hid. reflexivity. }
    rewrite Hps. exact (thread_recompute_idem _ _ _ Hr).
Qed.

Lemma save_dates_fields (now : nat) (rows : list post) (self s1 : post) :
  Revision.save_dates now rows self = Ok s1 ->
  p_id s1 = p_id self /\ p_user s1 = p_user self /\ p_thread s1 = p_thread self /\
  p_previous s1 = p_previous self.
Proof.
  unfold Revision.save_dates. destruct (p_previous self) as [pid|] eqn:Hp.
  - destruct (Revision.load_post pid rows); cbn; intros H; [|discriminate].
    injection H as <-. repeat split; cbn; auto.
  - destruct (p_id self) eqn:Hi; intros H; injection H as <-; repeat split; cbn; auto.
Qed.

Lemma save_base_ok (stamp new_id : nat) (d d' : Agg.db) (self p' : post) :
  Revision.save_base stamp new_id d self = Ok (d', p') ->
  Revision.user_id self <> None /\
  (p' = self \/ p' = Revision.set_date self stamp \/
   p' = Revision.set_id (Revision.set_date self stamp) (Some new_id)) /\
  (p_id self = None -> p' = Revision.set_id (Revision.set_date self stamp) (Some new_id)) /\
  In p' (Agg.posts d') /\
  exists d0, Agg.Post_signal p' d0 = Ok d'.
Proof.
  unfold Revision.save_base.
  destruct (Revision.user_id self) as [uid|]; [|discriminate]. intros H.
  split; [discriminate|].
  destruct (p_id self) as [i|] eqn:Hid.
  - destruct (existsb _ _) eqn:Hst; cbn [fst snd] in H.
    + destruct (Agg.Post_signal self _) as [d1|e] eqn:Hs; cbn in H; [|discriminate].
      injection H as <- <-. split; [left; reflexivity|]. split; [discriminate|].
      split; [|eexists; exact Hs].
      unfold Agg.Post_signal in Hs. rewrite (Thread_update_id_posts _ _ _ Hs).
      cbn [Agg.posts Agg.set_posts]. apply existsb_exists in Hst as (q & Hin & Hq).
      apply in_map_iff. exists q. split; [|exact Hin].
      rewrite Hq. reflexivity.
    + cbn [p_id Revision.set_date] in H. rewrite Hid in H.
      destruct (Agg.Post_signal _ _) as [d1|e] eqn:Hs; cbn in H; [|discriminate].
      injection H as <- <-. split; [right; left; reflexivity|]. split; [discriminate|].
      split; [|eexists; exact Hs].
      unfold Agg.Post_signal in Hs. rewrite (Thread_update_id_posts _ _ _ Hs).
      cbn [Agg.posts Agg.set_posts]. apply in_or_app. right. left. reflexivity.
  - cbn [fst snd p_id Revision.set_date] in H. rewrite Hid in H.
    destruct (Agg.Post_signal _ _) as [d1|e] eqn:Hs; cbn in H; [|discriminate].
    injection H as <- <-. split; [right; right; reflexivity|]. split; [reflexivity|].
    split; [|eexists; exact Hs].
    unfold Agg.Post_signal in Hs. rewrite (Thread_update_id_posts _ _ _ Hs).
    cbn [Agg.posts Agg.set_posts]. apply in_or_app. right. left. reflexivity.
Qed.

Lemma get_or_create_settings_ok (uid : nat) (st st1 : Revision.store) :
  Revision.get_or_create_settings uid st = Ok st1 ->
  Revision.s_db st1 = Revision.s_db st /\ Revision.s_watch st1 = Revision.s_watch st /\
  Revision.s_mail st1 = Revision.s_mail st /\ In uid (map fst (Revision.s_settings st1)).
Proof.
  unfold Revision.get_or_create_settings.
  destruct (List.filter _ _) as [|r [|r' l]] eqn:E; intros H;
    [injection H as <-|injection H as <-|discriminate]; cbn.
  - repeat split. rewrite map_app, in_app_iff. right. left. reflexivity.
  - repeat split.
    assert (Hr : In r (List.filter (fun r => Nat.eqb (fst r) uid) (Revision.s_settings st)))
      by (rewrite E; left; reflexivity).
    apply List.filter_In in Hr as [Hin Heq]. apply Nat.eqb_eq in Heq.
    apply in_map_iff. exists r. auto.
Qed.

Lemma get_or_create_watch_ok (u : user) (uid tid : nat) (st st1 : Revision.store) :
  Revision.get_or_create_watch u uid tid st = Ok st1 ->
  Revision.s_db st1 = Revision.s_db st /\ Revision.s_settings st1 = Revision.s_settings st /\
  Revision.s_mail st1 = Revision.s_mail st /\ exists e, In (uid, e, tid) (Revision.s_watch st1).
Proof.
  unfold Revision.get_or_create_watch.
  destruct (List.filter _ _) as [|r [|r' l]] eqn:E; intros H;
    [injection H as <-|injection H as <-|discriminate]; cbn.
  - repeat split. exists (u_email u). apply in_or_app. right. left. reflexivity.
  - repeat split.
    assert (Hr : In r (List.filter (fun r => Nat.eqb r.1.1 uid && Nat.eqb r.2 tid)
                         (Revision.s_watch st))) by (rewrite E; left; reflexivity).
    apply List.filter_In in Hr as [Hin Heq]. apply andb_true_iff in Heq as [H1 H2].
    apply Nat.eqb_eq in H1, H2. destruct r as [[a e] b]. cbn in H1, H2. subst.
    exists e. exact Hin.
Qed.

Lemma notify_ok (admins : list (string * string)) (send : post -> gset string -> result unit)
    (p : post) (st st1 : Revision.store) :
  Revision.notify admins send p st = Ok st1 ->
  Revision.s_db st1 = Revision.s_db st /\ Revision.s_settings st1 = Revision.s_settings st /\
  Revision.s_watch st1 = Revision.s_watch st /\
  exists R, Revision.s_mail st1 = Revision.s_mail st ++ [(p, R)].
Proof.
  unfold Revision.notify. destruct (Notify.Post_notify _ _ _ _) as [R|e]; cbn; intros H;
    [|discriminate]. injection H as <-. cbn. repeat split. eexists. reflexivity.
Qed.

Lemma Post_save_inv (sn : bool) (admins : list (string * string))
    (send : post -> gset string -> result unit) (now stamp new_id : nat)
    (st st' : Revision.store) (self p' : post) :
  Revision.Post_save sn admins send now stamp new_id st self = Ok (st', p') ->
  exists s1, Revision.save_dates now (Agg.posts (Revision.s_db st)) self = Ok s1 /\
    Revision.save_base stamp new_id (Revision.s_db st) s1 = Ok (Revision.s_db st', p') /\
    (((sn = false \/ p_id self <> None) /\ st' = Revision.set_db st (Revision.s_db st')) \/
     (sn = true /\ p_id self = None /\
      exists u uid st1 st2, p_user p' = Some u /\ u_pk u = Some uid /\
        Revision.get_or_create_settings uid (Revision.set_db st (Revision.s_db st')) = Ok st1 /\
        Revision.get_or_create_watch u uid (p_thread p') st1 = Ok st2 /\
        Revision.notify admins send p' st2 = Ok st')).
Proof.
  unfold Revision.Post_save.
  destruct (Revision.save_dates now _ self) as [s1|e] eqn:Hd; cbn; [|discriminate].
  destruct (Revision.save_base stamp new_id _ s1) as [[d1 p1]|e] eqn:Hb; cbn; [|discriminate].
  destruct (save_base_ok _ _ _ _ _ _ Hb) as (Hu & Hshape & _).
  assert (Hup : p_user p1 = p_user s1) by (destruct Hshape as [->|[->| ->]]; reflexivity).
  unfold Revision.user_id in Hu |- *. rewrite <- Hup in Hu.
  destruct (p_user p1) as [u|] eqn:Hu1; [|contradiction].
  destruct (u_pk u) as [uid|] eqn:Hpk; [|contradiction].
  destruct sn, (p_id self) eqn:Hi; cbn.
  - intros H. injection H as <- <-. exists s1. split; [reflexivity|]. split; [exact Hb|].
    left. split; [right; discriminate|reflexivity].
  - destruct (Revision.get_or_create_settings uid _) as [st1|e] eqn:H1; cbn; [|discriminate].
    destruct (Revision.get_or_create_watch u uid _ st1) as [st2|e] eqn:H2; cbn; [|discriminate].
    destruct (Revision.notify admins send p1 st2) as [st3|e] eqn:H3; cbn; [|discriminate].
    intros H. injection H as <- <-.
    destruct (get_or_create_settings_ok _ _ _ H1) as (Hdb1 & _).
    destruct (get_or_create_watch_ok _ _ _ _ _ H2) as (Hdb2 & _).
    destruct (notify_ok _ _ _ _ _ H3) as (Hdb3 & _).
    assert (Hdb : Revision.s_db st3 = d1) by (rewrite Hdb3, Hdb2, Hdb1; reflexivity).
    exists s1. split; [reflexivity|]. rewrite Hdb. split; [exact Hb|].
    right. split; [reflexivity|]. split; [reflexivity|].
    exists u, uid, st1, st2. auto.
  - intros H. injection H as <- <-. exists s1. split; [reflexivity|]. split; [exact Hb|].
    left. split; [left; reflexivity|reflexivity].
  - intros H. injection H as <- <-. exists s1. split; [reflexivity|]. split; [exact Hb|].
    left. split; [left; reflexivity|reflexivity].
Qed.

(** C8: saving a post with a [previous] row gives it that row's original
    date, and saving a new post without [previous] gives it the creation
    time: the date step of [save] sets the field, and whenever [save]
    returns, the instance it gives back and the row it stored carry it. *)
Theorem post_save_odate (snap_notify : bool) (admins : list (string * string))
    (send : post -> gset string -> result unit) (now stamp new_id : nat)
    (st : Revision.store) (self : post) :
  (forall pid prev, p_previous self = Some pid ->
     Revision.load_post pid (Agg.posts (Revision.s_db st)) = Ok prev ->
     Revision.save_dates now (Agg.posts (Revision.s_db st)) self =
       Ok (Revision.set_odate self (p_odate prev)) /\
     forall st' p', Revision.Post_save snap_notify admins send now stamp new_id st self = Ok (st', p') ->
       p_odate p' = p_odate prev /\ In p' (Agg.posts (Revision.s_db st'))) /\
  (p_previous self = None -> p_id self = None ->
     Revision.save_dates now (Agg.posts (Revision.s_db st)) self =
       Ok (Revision.set_odate self (Some now)) /\
     forall st' p', Revision.Post_save snap_notify admins send now stamp new_id st self = Ok (st', p') ->
       p_odate p' = Some now /\ In p' (Agg.posts (Revision.s_db st'))).
Proof.
  split.
  - intros pid prev Hp Hl.
    assert (Hd : Revision.save_dates now (Agg.posts (Revision.s_db st)) self =
                   Ok (Revision.set_odate self (p_odate prev))).
    { unfold Revision.save_dates. rewrite Hp, Hl. reflexivity. }
    split; [exact Hd|]. intros st' p' H.
    destruct (Post_save_inv _ _ _ _ _ _ _ _ _ _ H) as (s1 & Hd' & Hb & _).
    rewrite Hd in Hd'. injection Hd' as <-.
    destruct (save_base_ok _ _ _ _ _ _ Hb) as (_ & Hshape & _ & Hin & _).
    split; [destruct Hshape as [->|[->| ->]]; reflexivity|exact Hin].
  - intros Hp Hi.
    assert (Hd : Revision.save_dates now (Agg.posts (Revision.s_db st)) self =
                   Ok (Revision.set_odate self (Some now))).
    { unfold Revision.save_dates. rewrite Hp, Hi. reflexivity. }
    split; [exact Hd|]. intros st' p' H.
    destruct (Post_save_inv _ _ _ _ _ _ _ _ _ _ H) as (s1 & Hd' & Hb & _).
    rewrite Hd in Hd'. injection Hd' as <-.
    destruct (save_base_ok _ _ _ _ _ _ Hb) as (_ & Hshape & _ & Hin & _).
    split; [destruct Hshape as [->|[->| ->]]; reflexivity|exact Hin].
Qed.

(** The thread of [post_orig], in the public category [cat1], and a store
    with no settings, watch list rows or mails; a mailer that never fails. *)
Definition thread_orig : thread := mkThread 1 1 false 1 "alice" "alice@example.org"
  "alice" "alice@example.org" (Some 10).
Definition store_orig : Revision.store :=
  Revision.mkStore (Agg.mkDB [thread_orig] [post_orig] [cat1]) [] [] [].
Definition send_ok (p : post) (R : gset string) : result unit := Ok tt.

Lemma post_save_odate_witness :
  p_previous post_edit = Some 1 /\
  Revision.load_post 1 (Agg.posts (Revision.s_db store_orig)) = Ok post_orig /\
  exists st' p', Revision.Post_save true [] send_ok 20 20 2 store_orig post_edit = Ok (st', p') /\
    p_odate p' = Some 10.
Proof.
  split; [reflexivity|]. split; [reflexivity|].
  destruct (Revision.Post_save true [] send_ok 20 20 2 store_orig post_edit)
    as [[st' p']|e] eqn:E; [|vm_compute in E; discriminate E].
  exists st', p'. split; [reflexivity|].
  destruct (post_save_odate true [] send_ok 20 20 2 store_orig post_edit) as [H1 _].
  destruct (H1 1 post_orig eq_refl eq_refl) as [_ H2].
  exact (proj1 (H2 st' p' E)).
Defined.

(** C6 (code defect): saving an edit of alice's post (a new row whose
    [previous] is row 1) with notifications enabled creates alice's
    [UserSettings] and [WatchList] rows and sends the notification mail,
    to alice: [created] is [self.id is None], which holds for the edit row. *)
Theorem post_save_edit_notifies :
  p_previous post_edit = Some 1 /\ p_id post_edit = None /\
  exists st' p',
    Revision.Post_save true [] send_ok 20 20 2 store_orig post_edit = Ok (st', p') /\
    p_previous p' = Some 1 /\
    Revision.s_settings st' = [(1, true)] /\
    Revision.s_watch st' = [(1, "alice@example.org", 1)] /\
    Revision.s_mail st' = [(p', {["alice@example.org"]})].
Proof.
  split; [reflexivity|]. split; [reflexivity|].
  destruct (Revision.Post_save true [] send_ok 20 20 2 store_orig post_edit)
    as [[st' p']|e] eqn:E; vm_compute in E; [|discriminate E].
  injection E as <- <-. eexists _, _. repeat split; vm_compute; reflexivity.
Qed.

(** Saving a post that has an id, no [previous] and an author, and whose
    row is stored, gives the instance back unchanged (same id, date and
    original date), writes it over the stored row, runs the thread
    recompute of the [post_save] receiver, and writes no [UserSettings] or
    [WatchList] row and sends no mail. *)
Theorem post_resave_quiet (snap_notify : bool) (admins : list (string * string))
    (send : post -> gset string -> result unit) (now stamp new_id : nat)
    (st : Revision.store) (self : post) (i uid : nat)
    (Hid : p_id self = Some i) (Hprev : p_previous self = None)
    (Huid : Revision.user_id self = Some uid)
    (Hrow : exists q, In q (Agg.posts (Revision.s_db st)) /\ p_id q = Some i) :
  Revision.Post_save snap_notify admins send now stamp new_id st self =
    (let* d := Agg.Post_signal self (Agg.set_posts (Revision.s_db st)
                 (map (fun q => if bool_decide (p_id q = Some i) then self else q)
                      (Agg.posts (Revision.s_db st)))) in
     Ok (Revision.set_db st d, self)).
Proof.
  assert (Hst : existsb (fun q => bool_decide (p_id q = Some i)) (Agg.posts (Revision.s_db st)) = true).
  { apply existsb_exists. destruct Hrow as (q & Hin & Hq). exists q.
    split; [exact Hin|]. apply bool_decide_eq_true_2. exact Hq. }
  unfold Revision.Post_save, Revision.save_dates, Revision.save_base.
  rewrite Hprev, Hid. cbn [bind]. rewrite Huid, Hid, Hst. cbn [fst snd].
  destruct (Agg.Post_signal self _) as [d|e]; cbn [bind fst snd]; [|reflexivity].
  rewrite Huid. destruct (p_user self), snap_notify; reflexivity.
Qed.

Lemma post_resave_quiet_witness :
  Revision.Post_save true [] send_ok 50 50 2 store_orig post_orig =
    (let* d := Agg.Post_signal post_orig (Agg.set_posts (Revision.s_db store_orig)
                 (map (fun q => if bool_decide (p_id q = Some 1) then post_orig else q)
                      (Agg.posts (Revision.s_db store_orig)))) in
     Ok (Revision.set_db store_orig d, post_orig)).
Proof.
  apply (post_resave_quiet true [] send_ok 50 50 2 store_orig post_orig 1 1
           eq_refl eq_refl eq_refl).
  exists post_orig. split; [left; reflexivity|reflexivity].
Defined.

(** Once [Post.save] returns: without [SNAP_NOTIFY], or for an instance
    that had an id, no [UserSettings] or [WatchList] row has been written
    and no mail sent; with [SNAP_NOTIFY] and a new instance, the author
    has a [UserSettings] row and a [WatchList] row for the post's thread,
    and exactly one mail, for the saved post, has been sent. *)
Theorem post_save_effects (snap_notify : bool) (admins : list (string * string))
    (send : post -> gset string -> result unit) (now stamp new_id : nat)
    (st st' : Revision.store) (self p' : post)
    (H : Revision.Post_save snap_notify admins send now stamp new_id st self = Ok (st', p')) :
  ((snap_notify = false \/ p_id self <> None) ->
     Revision.s_settings st' = Revision.s_settings st /\
     Revision.s_watch st' = Revision.s_watch st /\
     Revision.s_mail st' = Revision.s_mail st) /\
  (snap_notify = true -> p_id self = None ->
     exists u uid R, p_user p' = Some u /\ u_pk u = Some uid /\
       In uid (map fst (Revision.s_settings st')) /\
       (exists e, In (uid, e, p_thread p') (Revision.s_watch st')) /\
       Revision.s_mail st' = Revision.s_mail st ++ [(p', R)]).
Proof.
  destruct (Post_save_inv _ _ _ _ _ _ _ _ _ _ H) as (s1 & _ & _ & [[Hc Hst]|(Hsn & Hi & Hn)]).
  - split.
    + intros _. rewrite Hst. repeat split.
    + intros Hsn Hi. exfalso. destruct Hc as [Hc|Hc]; congruence.
  - split.
    + intros [Hc|Hc]; congruence.
    + intros _ _. destruct Hn as (u & uid & st1 & st2 & Hu & Hpk & H1 & H2 & H3).
      destruct (get_or_create_settings_ok _ _ _ H1) as (_ & Hw1 & Hm1 & Hs1).
      destruct (get_or_create_watch_ok _ _ _ _ _ H2) as (_ & Hs2 & Hm2 & Hw2).
      destruct (notify_ok _ _ _ _ _ H3) as (_ & Hs3 & Hw3 & (R & Hm3)).
      exists u, uid, R. split; [exact Hu|]. split; [exact Hpk|].
      split; [rewrite Hs3, Hs2; exact Hs1|]. split; [rewrite Hw3; exact Hw2|].
      rewrite Hm3, Hm2, Hm1. reflexivity.
Qed.

Lemma post_save_effects_witness :
  exists st' p', Revision.Post_save true [] send_ok 20 20 2 store_orig post_edit = Ok (st', p') /\
    exists u uid R, p_user p' = Some u /\ u_pk u = Some uid /\
      In uid (map fst (Revision.s_settings st')) /\
      (exists e, In (uid, e, p_thread p') (Revision.s_watch st')) /\
      Revision.s_mail st' = Revision.s_mail store_orig ++ [(p', R)].
Proof.
  destruct (Revision.Post_save true [] send_ok 20 20 2 store_orig post_edit)
    as [[st' p']|e] eqn:E; [|vm_compute in E; discriminate E].
  exists st', p'. split; [reflexivity|].
  exact (proj2 (post_save_effects true [] send_ok 20 20 2 store_orig st' post_edit p' E)
           eq_refl eq_refl).
Defined.

(** [management_save] is [save] with [SNAP_NOTIFY] off: the same rows, the
    same instance and the same exceptions; and whenever [save] returns,
    notifications on or off, [management_save] on the same rows writes the
    same rows and gives the same instance. *)
Theorem management_save_as_save (admins : list (string * string))
    (send : post -> gset string -> result unit) (now stamp new_id : nat) (d : Agg.db)
    (S : list (nat * bool)) (W : list (nat * string * nat)) (M : list (post * gset string))
    (self : post) :
  Revision.management_save now stamp new_id d self =
    match Revision.Post_save false admins send now stamp new_id (Revision.mkStore d S W M) self with
    | Ok (st', p) => Ok (Revision.s_db st', p)
    | Err e => Err e
    end /\
  forall sn st' p',
    Revision.Post_save sn admins send now stamp new_id (Revision.mkStore d S W M) self = Ok (st', p') ->
    Revision.management_save now stamp new_id d self = Ok (Revision.s_db st', p').
Proof.
  split.
  - unfold Revision.management_save, Revision.Post_save. cbn [Revision.s_db].
    destruct (Revision.save_dates now (Agg.posts d) self) as [s1|e]; cbn [bind]; [|reflexivity].
    destruct (Revision.save_base stamp new_id d s1) as [[d1 p1]|e]; cbn [bind fst snd];
      [|reflexivity].
    destruct (p_user p1), (Revision.user_id p1); reflexivity.
  - intros sn st' p' H.
    destruct (Post_save_inv _ _ _ _ _ _ _ _ _ _ H) as (s1 & Hd & Hb & _).
    unfold Revision.management_save. cbn [Revision.s_db] in Hd, Hb.
    rewrite Hd. exact Hb.
Qed.

Lemma management_save_as_save_witness :
  exists st' p', Revision.Post_save true [] send_ok 20 20 2 store_orig post_edit = Ok (st', p') /\
    Revision.management_save 20 20 2 (Revision.s_db store_orig) post_edit =
      Ok (Revision.s_db st', p').
Proof.
  destruct (Revision.Post_save true [] send_ok 20 20 2 store_orig post_edit)
    as [[st' p']|e] eqn:E; [|vm_compute in E; discriminate E].
  exists st', p'. split; [reflexivity|].
  exact (proj2 (management_save_as_save [] send_ok 20 20 2 (Revision.s_db store_orig) [] [] []
                  post_edit) true st' p' E).
Defined.

(** [save] refuses a post without author with the [IntegrityError] of the
    NOT NULL column [user_id] (once its [previous] is loaded); a new post
    that [save] stores gets the id of the insert and the [auto_now_add]
    date, not the one it carried. *)
Theorem post_save_author_and_insert (snap_notify : bool) (admins : list (string * string))
    (send : post -> gset string -> result unit) (now stamp new_id : nat)
    (st : Revision.store) (self : post) :
  (Revision.user_id self = None ->
     forall s1, Revision.save_dates now (Agg.posts (Revision.s_db st)) self = Ok s1 ->
     Revision.Post_save snap_notify admins send now stamp new_id st self = Err IntegrityError) /\
  (forall st' p', p_id self = None ->
     Revision.Post_save snap_notify admins send now stamp new_id st self = Ok (st', p') ->
     p_id p' = Some new_id /\ p_date p' = stamp /\ In p' (Agg.posts (Revision.s_db st'))).
Proof.
  split.
  - intros Hu s1 Hd. unfold Revision.Post_save. rewrite Hd. cbn [bind].
    destruct (save_dates_fields _ _ _ _ Hd) as (_ & Hus & _).
    unfold Revision.save_base.
    assert (Hu1 : Revision.user_id s1 = None) by (unfold Revision.user_id in *; rewrite Hus; exact Hu).
    rewrite Hu1. reflexivity.
  - intros st' p' Hi H.
    destruct (Post_save_inv _ _ _ _ _ _ _ _ _ _ H) as (s1 & Hd & Hb & _).
    destruct (save_dates_fields _ _ _ _ Hd) as (Hi1 & _).
    destruct (save_base_ok _ _ _ _ _ _ Hb) as (_ & _ & Hnew & Hin & _).
    rewrite (Hnew (eq_trans Hi1 Hi)) in Hin |- *. split; [reflexivity|]. split; [reflexivity|].
    exact Hin.
Qed.

(** A new post without author. *)
Definition post_noauthor : post := mkPost None None 1 30 None None None false.

Lemma post_save_author_and_insert_witness :
  Revision.user_id post_noauthor = None /\
  Revision.save_dates 40 (Agg.posts (Revision.s_db store_orig)) post_noauthor =
    Ok (Revision.set_odate post_noauthor (Some 40)) /\
  Revision.Post_save true [] send_ok 40 40 2 store_orig post_noauthor = Err IntegrityError.
Proof.
  split; [reflexivity|]. split; [reflexivity|].
  exact (proj1 (post_save_author_and_insert true [] send_ok 40 40 2 store_orig post_noauthor)
           eq_refl _ eq_refl).
Defined.

(** Once [save] returns, the post's thread, loaded again, is what a fresh
    recompute over the stored posts gives: the [post_save] receiver runs
    after the row is written (the [pre_delete] one, before; see C3). *)
Theorem post_save_thread_fresh (snap_notify : bool) (admins : list (string * string))
    (send : post -> gset string -> result unit) (now stamp new_id : nat)
    (st st' : Revision.store) (self p' : post)
    (H : Revision.Post_save snap_notify admins send now stamp new_id st self = Ok (st', p')) :
  exists t, Agg.get_thread (p_thread p') (Revision.s_db st') = Ok t /\
    Agg.thread_recompute t (Agg.post_set t (Revision.s_db st')) = Ok t.
Proof.
  destruct (Post_save_inv _ _ _ _ _ _ _ _ _ _ H) as (s1 & _ & Hb & _).
  destruct (save_base_ok _ _ _ _ _ _ Hb) as (_ & _ & _ & _ & (d0 & Hs)).
  exact (Thread_update_id_fresh _ _ _ Hs).
Qed.

Lemma post_save_thread_fresh_witness :
  exists st' p', Revision.Post_save true [] send_ok 20 20 2 store_orig post_edit = Ok (st', p') /\
    exists t, Agg.get_thread (p_thread p') (Revision.s_db st') = Ok t /\
      Agg.thread_recompute t (Agg.post_set t (Revision.s_db st')) = Ok t.
Proof.
  destruct (Revision.Post_save true [] send_ok 20 20 2 store_orig post_edit)
    as [[st' p']|e] eqn:E; [|vm_compute in E; discriminate E].
  exists st', p'. split; [reflexivity|].
  exact (post_save_thread_fresh true [] send_ok 20 20 2 store_orig st' post_edit p' E).
Defined.

(** ** Notification recipients *)

Lemma NoDup_cons_In {A} (x : A) (l : list A) : NoDup (x :: l) <-> ~ In x l /\ NoDup l.
Proof. rewrite NoDup_cons, list_elem_of_In. reflexivity. Qed.

Lemma dict_of_fold_some (l : list (nat * string)) (m : gmap nat string) (k : nat) (v : string) :
  foldl (fun m r => <[fst r := snd r]> m) m l !! k = Some v ->
  In (k, v) l \/ m !! k = Some v.
Proof.
  revert m. induction l as [|[a b] l IH]; intros m H; cbn in *; [right; exact H|].
  apply IH in H as [H|H]; [left; right; exact H|].
  destruct (Nat.eq_dec k a) as [->|Hne].
  - rewrite lookup_insert_eq in H. injection H as ->. left. left. reflexivity.
  - rewrite lookup_insert_ne in H by congruence. right. exact H.
Qed.

Lemma dict_of_fold_def (l : list (nat * string)) (m : gmap nat string) (k : nat) :
  (exists v, In (k, v) l) \/ is_Some (m !! k) ->
  is_Some (foldl (fun m r => <[fst r := snd r]> m) m l !! k).
Proof.
  revert m. induction l as [|[a b] l IH]; intros m H; cbn.
  - destruct H as [(v & [])|H]. exact H.
  - apply IH. destruct H as [(v & [Hv|Hv])|H].
    + injection Hv as Ha Hb. subst. right. rewrite lookup_insert_eq. eexists. reflexivity.
    + left. eauto.
    + right. destruct (Nat.eq_dec k a) as [->|Hne].
      * rewrite lookup_insert_eq. eexists. reflexivity.
      * rewrite lookup_insert_ne by congruence. exact H.
Qed.

(** A watch list that gives each user one email: the rows come from a join
    on the user's row. *)
Definition functional (l : list (nat * string)) : Prop :=
  forall k e1 e2, In (k, e1) l -> In (k, e2) l -> e1 = e2.

Lemma dict_of_lookup (l : list (nat * string)) (k : nat) (v : string) :
  functional l -> Notify.dict_of l !! k = Some v <-> In (k, v) l.
Proof.
  intros Hf. unfold Notify.dict_of. split.
  - intros H. apply dict_of_fold_some in H as [H|H]; [exact H|].
    rewrite lookup_empty in H. discriminate.
  - intros Hin. destruct (dict_of_fold_def l ∅ k (or_introl (ex_intro _ v Hin))) as [v' Hv'].
    rewrite Hv'. f_equal.
    apply dict_of_fold_some in Hv' as [Hv'|Hv']; [|rewrite lookup_empty in Hv'; discriminate].
    exact (Hf k v' v Hv' Hin).
Qed.

Lemma pop_all_spec (m : gmap nat string) (ks : list nat) :
  NoDup ks -> (forall k, In k ks -> is_Some (m !! k)) ->
  exists m', Notify.pop_all m ks = Some m' /\
    forall k v, m' !! k = Some v <-> m !! k = Some v /\ ~ In k ks.
Proof.
  revert m. induction ks as [|k0 ks IH]; intros m Hnd Hks; cbn.
  - exists m. split; [reflexivity|]. intros k v. tauto.
  - apply NoDup_cons_In in Hnd as [Hk0 Hnd].
    destruct (Hks k0 (or_introl eq_refl)) as [v0 Hv0]. rewrite Hv0.
    destruct (IH (delete k0 m) Hnd) as (m' & Hp & Hm').
    { intros k Hk. rewrite lookup_delete_ne; [apply Hks; right; exact Hk|].
      intros ->. contradiction. }
    exists m'. split; [exact Hp|]. intros k v. rewrite Hm', lookup_delete_Some.
    split.
    + intros [[Hne Hm] Hn]. split; [exact Hm|]. intros [Hk|Hk]; [congruence|contradiction].
    + intros [Hm Hn]. split; [split; [|exact Hm]|].
      * intros ->. apply Hn. left. reflexivity.
      * intros Hk. apply Hn. right. exact Hk.
Qed.

Lemma NoDup_map_fst_filter {A B} (f : A * B -> bool) (l : list (A * B)) :
  NoDup (map fst l) -> NoDup (map fst (List.filter f l)).
Proof.
  induction l as [|x l IH]; cbn; intros Hnd; [constructor|].
  apply NoDup_cons_In in Hnd as [Hx Hnd].
  destruct (f x); cbn; [|exact (IH Hnd)].
  apply NoDup_cons_In. split; [|exact (IH Hnd)].
  intros Hin. apply Hx. apply in_map_iff in Hin as (y & Hy & Hin).
  apply List.filter_In in Hin as [Hin _]. apply in_map_iff. eauto.
Qed.

(** [Post.notify] raises no [KeyError] when the [UserSettings] rows have
    distinct users (the one-to-one [UserSettings.user]) and the watch list
    gives each user one email; the recipients handed to [send_mail] are
    then exactly the administrators' addresses and the addresses of the
    watchers without a settings row with [notify_email = False], and
    [notify] raises exactly when [renders] or [send_mail] raises. *)
Theorem notify_recipients (send : gset string -> result unit) (watch : list (nat * string))
    (settings : list (nat * bool)) (admins : list (string * string))
    (Hw : functional watch) (Hs : NoDup (map fst settings)) :
  exists R, Notify.Post_notify send watch settings admins = (let* _ := send R in Ok R) /\
    forall e, e ∈ R <-> In e (map snd admins) \/
                         exists uid, In (uid, e) watch /\ ~ In (uid, false) settings.
Proof.
  unfold Notify.Post_notify, Notify.mail_recipients.
  set (D := Notify.dict_of watch).
  set (P := fun s : nat * bool => bool_decide (fst s ∈ dom D) && negb (snd s)).
  assert (HP : forall k, In k (map fst (List.filter P settings)) <->
                         is_Some (D !! k) /\ In (k, false) settings).
  { intros k. rewrite in_map_iff. split.
    - intros ([k' b] & <- & Hin). apply List.filter_In in Hin as [Hin Hb].
      unfold P in Hb. cbn in Hb. apply andb_true_iff in Hb as [Hd Hb].
      apply bool_decide_eq_true_1 in Hd. apply elem_of_dom in Hd.
      destruct b; [discriminate|]. split; [exact Hd|exact Hin].
    - intros [Hd Hin]. exists (k, false). split; [reflexivity|].
      apply List.filter_In. split; [exact Hin|]. unfold P. cbn.
      rewrite bool_decide_eq_true_2; [reflexivity|]. apply elem_of_dom. exact Hd. }
  destruct (pop_all_spec D (map fst (List.filter P settings)))
    as (m' & Hp & Hm').
  { apply NoDup_map_fst_filter. exact Hs. }
  { intros k Hk. apply HP in Hk as [Hk _]. exact Hk. }
  rewrite Hp. eexists. split; [reflexivity|]. intros e.
  rewrite elem_of_union, !elem_of_list_to_set, !list_elem_of_In, !in_map_iff.
  split.
  - intros [([k e'] & <- & Hin)|(a & <- & Hin)].
    + right. apply list_elem_of_In, elem_of_map_to_list in Hin.
      apply Hm' in Hin as [HD Hn]. exists k. cbn. split.
      * apply (dict_of_lookup watch k e' Hw). exact HD.
      * intros Hf. apply Hn. apply HP. split; [eexists; exact HD|exact Hf].
    + left. exists a. auto.
  - intros [(a & <- & Hin)|(uid & Hin & Hn)].
    + right. exists a. auto.
    + left. exists (uid, e). split; [reflexivity|].
      apply list_elem_of_In, elem_of_map_to_list, Hm'. split.
      * apply (dict_of_lookup watch uid e Hw). exact Hin.
      * intros Hk. apply HP in Hk as [_ Hf]. contradiction.
Qed.

(** Alice watches twice (two [WatchList] rows), bob once and has turned
    notifications off. *)
Definition watch_rows : list (nat * string) :=
  [(1, "alice@example.org"); (2, "bob@example.org"); (1, "alice@example.org")].

Lemma notify_recipients_witness :
  functional watch_rows /\ NoDup (map fst [(2, false)]) /\
  exists R, Notify.Post_notify (fun _ => Ok tt) watch_rows [(2, false)]
              [("root", "root@example.org")] = Ok R /\
    "alice@example.org" ∈ R /\ "bob@example.org" ∉ R.
Proof.
  assert (Hw : functional watch_rows).
  { intros k e1 e2 H1 H2. cbn in H1, H2.
    destruct H1 as [H1|[H1|[H1|[]]]], H2 as [H2|[H2|[H2|[]]]]; congruence. }
  assert (Hs : NoDup (map fst [(2, false)])) by (apply (bool_decide_unpack _); reflexivity).
  split; [exact Hw|]. split; [exact Hs|].
  destruct (notify_recipients (fun _ => Ok tt) _ _ [("root", "root@example.org")] Hw Hs)
    as (R & HR & Hiff).
  exists R. split; [exact HR|]. split.
  - apply Hiff. right. exists 1. split; [left; reflexivity|].
    intros [Hf|[]]. discriminate.
  - rewrite Hiff. cbn.
    intros [[Ha|[]]|(uid & [Hu|[Hu|[Hu|[]]]] & Hn)]; try discriminate.
    injection Hu as Hu. subst uid. apply Hn. left. reflexivity.
Defined.

(** ** Moderators *)

(** [Category.moderators] returns [None] exactly when the category has no
    moderator row. *)
Theorem moderators_none (cid : nat) (rows : list (nat * user)) :
  Moderators.moderators cid rows = None <-> forall m, In m rows -> fst m <> cid.
Proof.
  unfold Moderators.moderators.
  destruct (List.filter (fun m => Nat.eqb (fst m) cid) rows) as [|m0 r] eqn:E; cbn.
  - split; [|reflexivity]. intros _ m Hin Heq.
    assert (Hf : In m (List.filter (fun m => Nat.eqb (fst m) cid) rows)).
    { apply List.filter_In. split; [exact Hin|]. apply Nat.eqb_eq. exact Heq. }
    rewrite E in Hf. destruct Hf.
  - split; [discriminate|]. intros Hno.
    assert (Hf : In m0 (List.filter (fun m => Nat.eqb (fst m) cid) rows))
      by (rewrite E; left; reflexivity).
    apply List.filter_In in Hf as [Hin Heq]. apply Nat.eqb_eq in Heq.
    exfalso. exact (Hno m0 Hin Heq).
Qed.

(** ** Ban registry: save, delete and the unique key *)

Section BanFacts.
Context {K : Type} `{Countable K}.

(** Saving a ban row for key [k] bans [k]; saving a row whose key another
    row already holds raises [IntegrityError] and changes nothing;
    deleting row [rid] unbans [k] when [rid] was the only row holding it. *)
Theorem ban_save_delete (s s' : Bans.ban_state K) (rid : nat) (k : K) :
  (Bans.apply_ban_op (Bans.Save rid k) s = Ok s' -> Bans.is_banned k s' = true) /\
  ((exists r, In (r, k) (Bans.store s) /\ r <> rid) ->
     Bans.apply_ban_op (Bans.Save rid k) s = Err IntegrityError) /\
  (Bans.apply_ban_op (Bans.Delete rid) s = Ok s' ->
     (forall r, In (r, k) (Bans.store s) -> r = rid) -> Bans.is_banned k s' = false).
Proof.
  split; [|split].
  - cbn. destruct (existsb _ _); [discriminate|]. intros Hs. injection Hs as <-.
    unfold Bans.is_banned. apply bool_decide_eq_true_2. cbn.
    rewrite elem_of_list_to_set, list_elem_of_In, in_map_iff.
    destruct (existsb (fun r => Nat.eqb (fst r) rid) (Bans.store s)) eqn:E.
    + apply existsb_exists in E as ([r k'] & Hin & Hr). apply Nat.eqb_eq in Hr. cbn in Hr.
      subst r. exists (rid, k). split; [reflexivity|]. apply in_map_iff.
      exists (rid, k'). cbn. rewrite Nat.eqb_refl. auto.
    + exists (rid, k). split; [reflexivity|]. apply in_or_app. right. left. reflexivity.
  - intros (r & Hin & Hne). cbn.
    replace (existsb _ _) with true; [reflexivity|]. symmetry. apply existsb_exists.
    exists (r, k). split; [exact Hin|]. cbn. apply andb_true_iff. split.
    + apply bool_decide_eq_true_2. reflexivity.
    + apply negb_true_iff. apply Nat.eqb_neq. exact Hne.
  - cbn. intros Hs Honly. injection Hs as <-.
    unfold Bans.is_banned. apply bool_decide_eq_false_2. cbn.
    rewrite elem_of_list_to_set, list_elem_of_In, in_map_iff.
    intros ([r k'] & Hk & Hin). cbn in Hk. subst k'.
    apply List.filter_In in Hin as [Hin Hr]. cbn in Hr.
    rewrite (Honly r Hin), Nat.eqb_refl in Hr. discriminate.
Qed.

(** The refresh is a full reload: the state after any ban operation does
    not depend on the cached set before it. *)
Theorem ban_reload_ignores_cache (op : Bans.ban_op K) (st : list (nat * K)) (c1 c2 : gset K) :
  Bans.apply_ban_op op (Bans.mkBanState st c1) = Bans.apply_ban_op op (Bans.mkBanState st c2).
Proof. destruct op; cbn; [destruct (existsb _ _)|]; reflexivity. Qed.

End BanFacts.

Lemma ban_save_delete_witness :
  Bans.apply_ban_op (Bans.Delete 1) ban_state_refreshed = Ok (Bans.mkBanState [] ∅) /\
  Bans.is_banned 7 (Bans.mkBanState (K := nat) [] ∅) = false.
Proof.
  assert (Hd : Bans.apply_ban_op (Bans.Delete 1) ban_state_refreshed = Ok (Bans.mkBanState [] ∅))
    by reflexivity.
  split; [exact Hd|].
  apply (proj2 (proj2 (ban_save_delete ban_state_refreshed _ 1 7)) Hd).
  cbn. intros r [Hr|[]]. injection Hr as ->. reflexivity.
Defined.
